(** * EngageVision-AI: the video-analysis core of [engagement/ai_engine.py]
      and [engagement/models.py]

    A shallow embedding of [EngagementAnalyzer], [process_video],
    [simulate_processing] and [EngagementRecord.save].

    Conventions.
    - Python [int] is [Z]; a Python [float] is the rational it denotes ([Q]),
      so [a / b * 100] is exact and statements about percentages use [==].
      Timestamps and elapsed times ([timezone.now()], [time.time()]) and the
      log lines are not part of the model.
    - A Python call that may raise returns [result]; [try ... except
      Exception] is a [match] on it.
    - OpenCV, NumPy, the file system and the random generator are outside
      the repository: they are the fields of [Platform] and the entropy
      stream of [Rng]. *)

From Stdlib Require Import ZArith QArith List String Bool Lia Lqa.
From Stdlib Require Import Ascii Permutation.
Import ListNotations.

Local Open Scope Z_scope.

(** ** Exceptions *)

Inductive exn : Type :=
| ZeroDivisionError
| ValueError
| OtherError (msg : string).

(** [str(e)], as [process_video] reports it. *)
Definition str (e : exn) : string :=
  match e with
  | ZeroDivisionError => "integer modulo by zero"
  | ValueError => "not enough values to unpack"
  | OtherError msg => msg
  end.

Inductive result (A : Type) : Type :=
| Ok (a : A)
| Raise (e : exn).
Arguments Ok {A} a.
Arguments Raise {A} e.

Definition bind {A B : Type} (m : result A) (k : A -> result B) : result B :=
  match m with
  | Ok a => k a
  | Raise e => Raise e
  end.

Declare Scope py_scope.
Delimit Scope py_scope with py.
Notation "x <- m ;; k" := (bind m (fun x => k))
  (at level 61, m at next level, right associativity) : py_scope.
Notation "' p <- m ;; k" := (bind m (fun x => match x with p => k end))
  (at level 61, p pattern, m at next level, right associativity) : py_scope.
Local Open Scope py_scope.

(** [try: body except Exception: handler]. *)
Definition try_except {A : Type} (body : result A) (handler : exn -> result A)
  : result A :=
  match body with
  | Ok a => Ok a
  | Raise e => handler e
  end.

(** [a % b] on Python ints: the sign follows the divisor, as [Z.modulo]
    does; a zero divisor raises. *)
Definition py_mod (a b : Z) : result Z :=
  if b =? 0 then Raise ZeroDivisionError else Ok (a mod b).

(** ** Floats as rationals *)

Definition Qlt_bool (x y : Q) : bool :=
  (Qnum x * QDen y <? Qnum y * QDen x)%Z.

(** [a / b] on two Python ints (true division), [b <> 0] at every use. *)
Definition true_div (a b : Z) : Q := (inject_Z a / inject_Z b)%Q.

(** ** NumPy arrays

    A grayscale region is an array with its [shape] and its samples in
    row-major order. *)

Record ndarray : Type := mk_ndarray {
  shape : list Z;
  data : list Z
}.

(** [a.size]: the product of the dimensions. *)
Definition size (a : ndarray) : Z := fold_right Z.mul 1 (shape a).

(** [h, w = a.shape[:2]]: the unpacking raises [ValueError] unless the
    slice has exactly two items. *)
Definition unpack_shape2 (a : ndarray) : result (Z * Z) :=
  match firstn 2 (shape a) with
  | [h; w] => Ok (h, w)
  | _ => Raise ValueError
  end.

(** ** Behaviour labels *)

Inductive Behavior : Type := Attentive | Sleepy | Distracted | Neutral.

(** ** The platform: OpenCV, NumPy and the file system *)

Definition Box : Type := (Z * Z * Z * Z)%type.   (* (x, y, w, h) *)

(** An open [cv2.VideoCapture]: whether it opened, and what each successive
    [cap.read()] gives until it returns [ret = False]. *)
Record Capture (Frame : Type) : Type := mk_Capture {
  isOpened : bool;
  reads : list (result Frame)
}.
Arguments mk_Capture {Frame}.
Arguments isOpened {Frame}.
Arguments reads {Frame}.

Class Platform : Type := {
  Frame : Type;
  Gray : Type;
  (** [import cv2] succeeded *)
  CV2_AVAILABLE : bool;
  (** [os.path.exists] *)
  os_path_exists : string -> bool;
  (** the Haar cascade file is there *)
  cascade_exists : bool;
  cv2_VideoCapture : string -> Capture Frame;
  (** [cv2.equalizeHist(cv2.cvtColor(frame, COLOR_BGR2GRAY))] *)
  cv2_gray : Frame -> result Gray;
  (** [face_cascade.detectMultiScale(gray, 1.1, 5, minSize)] *)
  detectMultiScale : Gray -> Z * Z -> result (list Box);
  (** [gray[y:y+h, x:x+w]] *)
  crop : Gray -> Box -> ndarray;
  np_mean : ndarray -> result Q;
  np_std : ndarray -> result Q
}.

(** ** [EngagementAnalyzer] *)

Record CumulativeStats : Type := mk_cum {
  cum_attentive : Z;
  cum_sleepy : Z;
  cum_distracted : Z;
  cum_neutral : Z
}.

Record EngagementAnalyzer : Type := mk_analyzer {
  save_interval : Z;
  min_face_size : Z * Z;
  face_cascade : bool;          (* [False] stands for [None] *)
  frame_count : Z;
  total_faces_detected : Z;
  attentive_count : Z;
  sleepy_count : Z;
  distracted_count : Z;
  neutral_count : Z;
  cumulative_stats : CumulativeStats
}.

(** The dict both [get_current_stats] and [get_cumulative_stats] return. *)
Record Stats : Type := mk_stats {
  st_total_students : Z;
  st_attentive_count : Z;
  st_sleepy_count : Z;
  st_distracted_count : Z;
  st_neutral_count : Z;
  st_engagement_percentage : Q
}.

(** The per-frame dict of [process_frame]; [{}] for a missing frame is the
    all-zero tally, its only use being [_] in the caller. *)
Record FrameCounts : Type := mk_counts {
  fc_attentive : Z;
  fc_sleepy : Z;
  fc_distracted : Z;
  fc_neutral : Z
}.

(** ** [EngagementRecord] (models.py) *)

Record EngagementRecord : Type := mk_record {
  video_upload_id : option Z;
  total_students : Z;
  rec_attentive_count : Z;
  rec_sleepy_count : Z;
  rec_distracted_count : Z;
  rec_neutral_count : Z;
  engagement_percentage : Q;
  frame_number : Z
}.

(** The table, oldest row first. *)
Definition DB : Type := list EngagementRecord.

(** What [save] stores: the percentage is recomputed from the counts. *)
Definition stored (r : EngagementRecord) : EngagementRecord :=
  mk_record (video_upload_id r) (total_students r) (rec_attentive_count r)
    (rec_sleepy_count r) (rec_distracted_count r) (rec_neutral_count r)
    (if total_students r >? 0
     then (true_div (rec_attentive_count r) (total_students r) * 100)%Q
     else 0%Q)
    (frame_number r).

Definition EngagementRecord_save (r : EngagementRecord) (db : DB) : DB :=
  db ++ [stored r].

Section Engine.

Context {P : Platform}.

Definition EngagementAnalyzer_init (save_interval : Z) (min_face_size : Z * Z)
  : EngagementAnalyzer :=
  mk_analyzer save_interval min_face_size
    (CV2_AVAILABLE && cascade_exists)
    0 0 0 0 0 0 (mk_cum 0 0 0 0).

(** The body of the [try] in [classify_behavior]. *)
Definition classify_body (face_region : ndarray) : result Behavior :=
  ' (h, w) <- unpack_shape2 face_region ;;
  if (h =? 0) || (w =? 0) then Ok Neutral else
  brightness <- np_mean face_region ;;
  contrast <- np_std face_region ;;
  let aspect_ratio := if h >? 0 then true_div w h else 1%Q in
  if Qlt_bool brightness 80 && Qlt_bool contrast 30 then Ok Sleepy
  else if Qlt_bool aspect_ratio 0.6 || Qlt_bool 1.4 aspect_ratio
  then Ok Distracted
  else if Qlt_bool 100 brightness && Qlt_bool 40 contrast
          && (Qlt_bool 0.7 aspect_ratio && Qlt_bool aspect_ratio 1.3)
  then Ok Attentive
  else Ok Neutral.

Definition classify_behavior (face_region : option ndarray) : result Behavior :=
  match face_region with
  | None => Ok Neutral
  | Some a =>
      if size a =? 0 then Ok Neutral
      else try_except (classify_body a) (fun _ => Ok Neutral)
  end.

Definition tally (c : FrameCounts) (behavior : Behavior) : FrameCounts :=
  match behavior with
  | Attentive =>
      mk_counts (fc_attentive c + 1) (fc_sleepy c) (fc_distracted c) (fc_neutral c)
  | Sleepy =>
      mk_counts (fc_attentive c) (fc_sleepy c + 1) (fc_distracted c) (fc_neutral c)
  | Distracted =>
      mk_counts (fc_attentive c) (fc_sleepy c) (fc_distracted c + 1) (fc_neutral c)
  | Neutral =>
      mk_counts (fc_attentive c) (fc_sleepy c) (fc_distracted c) (fc_neutral c + 1)
  end.

(** [for (x, y, w, h) in faces: ...] of [process_frame]. *)
Fixpoint classify_faces (gray : Gray) (faces : list Box) (c : FrameCounts)
  : result FrameCounts :=
  match faces with
  | [] => Ok c
  | box :: rest =>
      behavior <- classify_behavior (Some (crop gray box)) ;;
      classify_faces gray rest (tally c behavior)
  end.

(** The counters after [+= frame_...], interval and cumulative. *)
Definition add_counts (an : EngagementAnalyzer) (c : FrameCounts)
  : EngagementAnalyzer :=
  mk_analyzer (save_interval an) (min_face_size an) (face_cascade an)
    (frame_count an) (total_faces_detected an)
    (attentive_count an + fc_attentive c)
    (sleepy_count an + fc_sleepy c)
    (distracted_count an + fc_distracted c)
    (neutral_count an + fc_neutral c)
    (mk_cum (cum_attentive (cumulative_stats an) + fc_attentive c)
            (cum_sleepy (cumulative_stats an) + fc_sleepy c)
            (cum_distracted (cumulative_stats an) + fc_distracted c)
            (cum_neutral (cumulative_stats an) + fc_neutral c)).

Definition process_frame (an : EngagementAnalyzer) (frame : option Frame)
  : result (Z * FrameCounts * EngagementAnalyzer) :=
  match frame with
  | None => Ok (0, mk_counts 0 0 0 0, an)
  | Some frame =>
      gray <- cv2_gray frame ;;
      faces <- (if face_cascade an
                then detectMultiScale gray (min_face_size an)
                else Ok []) ;;
      c <- classify_faces gray faces (mk_counts 0 0 0 0) ;;
      Ok (Z.of_nat (List.length faces), c, add_counts an c)
  end.

Definition get_current_stats (an : EngagementAnalyzer) : Stats :=
  let total :=
    attentive_count an + sleepy_count an + distracted_count an
    + neutral_count an in
  let engagement_pct :=
    if total >? 0 then (true_div (attentive_count an) total * 100)%Q else 0%Q in
  mk_stats total (attentive_count an) (sleepy_count an) (distracted_count an)
    (neutral_count an) engagement_pct.

Definition reset_interval_stats (an : EngagementAnalyzer) : EngagementAnalyzer :=
  mk_analyzer (save_interval an) (min_face_size an) (face_cascade an)
    (frame_count an) (total_faces_detected an) 0 0 0 0 (cumulative_stats an).

(** [sum(self.cumulative_stats.values())]: the dict has its four keys in
    insertion order. *)
Definition cumulative_values (c : CumulativeStats) : list Z :=
  [cum_attentive c; cum_sleepy c; cum_distracted c; cum_neutral c].

Definition py_sum (l : list Z) : Z := fold_left Z.add l 0.

Definition get_cumulative_stats (an : EngagementAnalyzer) : Stats :=
  let cs := cumulative_stats an in
  let total := py_sum (cumulative_values cs) in
  let engagement_pct :=
    if total >? 0 then (true_div (cum_attentive cs) total * 100)%Q else 0%Q in
  mk_stats total (cum_attentive cs) (cum_sleepy cs) (cum_distracted cs)
    (cum_neutral cs) engagement_pct.

(** ** [process_video] *)

Record Summary : Type := mk_summary {
  success : bool;
  error : option string;
  total_frames : option Z;
  sum_total_faces_detected : option Z;
  records_created : Z;
  final_stats : option Stats;
  simulated : bool
}.

Definition failed (msg : string) (records_created : Z) : Summary :=
  mk_summary false (Some msg) None None records_created None false.

(** [EngagementRecord(video_upload_id=..., total_students=stats[...], ...)]. *)
Definition record_of_stats (video_upload_id : option Z) (stats : Stats)
  (frame_number : Z) : EngagementRecord :=
  mk_record video_upload_id (st_total_students stats)
    (st_attentive_count stats) (st_sleepy_count stats)
    (st_distracted_count stats) (st_neutral_count stats)
    (st_engagement_percentage stats) frame_number.

Definition incr_frame_count (an : EngagementAnalyzer) : EngagementAnalyzer :=
  mk_analyzer (save_interval an) (min_face_size an) (face_cascade an)
    (frame_count an + 1) (total_faces_detected an)
    (attentive_count an) (sleepy_count an) (distracted_count an)
    (neutral_count an) (cumulative_stats an).

Definition add_faces_detected (an : EngagementAnalyzer) (n : Z)
  : EngagementAnalyzer :=
  mk_analyzer (save_interval an) (min_face_size an) (face_cascade an)
    (frame_count an) (total_faces_detected an + n)
    (attentive_count an) (sleepy_count an) (distracted_count an)
    (neutral_count an) (cumulative_stats an).

(** One pass through the body of [while True], for a [cap.read()] that
    returned a frame. A raise leaves the table and [records_created] as
    they were: every statement that can raise precedes [record.save()]. *)
Definition loop_body (video_upload_id : option Z) (save_interval : Z)
  (rd : result Frame) (analyzer : EngagementAnalyzer) (records_created : Z)
  (db : DB) : result (EngagementAnalyzer * Z * DB) :=
  frame <- rd ;;
  let analyzer := incr_frame_count analyzer in
  ' (faces_detected, _, analyzer) <- process_frame analyzer (Some frame) ;;
  let analyzer := add_faces_detected analyzer faces_detected in
  m <- py_mod (frame_count analyzer) save_interval ;;
  if m =? 0 then
    let stats := get_current_stats analyzer in
    let record :=
      record_of_stats video_upload_id stats (frame_count analyzer) in
    let db := EngagementRecord_save record db in
    Ok (reset_interval_stats analyzer, records_created + 1, db)
  else Ok (analyzer, records_created, db).

(** How the [while True] loop ends: [break] at end of stream, or in the
    [except] clause with the exception and the local [records_created]. *)
Inductive LoopExit : Type :=
| Break (analyzer : EngagementAnalyzer) (records_created : Z)
| Except (e : exn) (records_created : Z).

Fixpoint video_loop (video_upload_id : option Z) (save_interval : Z)
  (rds : list (result Frame)) (analyzer : EngagementAnalyzer)
  (records_created : Z) (db : DB) : LoopExit * DB :=
  match rds with
  | [] => (Break analyzer records_created, db)
  | rd :: rest =>
      match loop_body video_upload_id save_interval rd analyzer
              records_created db with
      | Ok (analyzer', records_created', db') =>
          video_loop video_upload_id save_interval rest analyzer'
            records_created' db'
      | Raise e => (Except e records_created, db)
      end
  end.

(** "Save final results if any frames processed since last save". This
    part is outside the [try]: a raise here leaves [process_video]. *)
Definition final_flush (video_upload_id : option Z) (save_interval : Z)
  (analyzer : EngagementAnalyzer) (records_created : Z) (db : DB)
  : result (Z * DB) :=
  m <- py_mod (frame_count analyzer) save_interval ;;
  if negb (m =? 0) then
    let stats := get_current_stats analyzer in
    if st_total_students stats >? 0 then
      let record :=
        record_of_stats video_upload_id stats (frame_count analyzer) in
      Ok (records_created + 1, EngagementRecord_save record db)
    else Ok (records_created, db)
  else Ok (records_created, db).

Definition process_video (video_path : string) (video_upload_id : option Z)
  (save_interval : Z) (db : DB) : result Summary * DB :=
  if negb CV2_AVAILABLE then
    (Ok (failed "OpenCV is not installed" 0), db)
  else if negb (os_path_exists video_path) then
    (Ok (failed "Video file not found" 0), db)
  else
    let analyzer := EngagementAnalyzer_init save_interval (30, 30) in
    let cap := cv2_VideoCapture video_path in
    if negb (isOpened cap) then
      (Ok (failed "Could not open video file" 0), db)
    else
      match video_loop video_upload_id save_interval (reads cap) analyzer 0 db
      with
      | (Except e records_created, db) =>
          (Ok (failed (str e) records_created), db)
      | (Break analyzer records_created, db) =>
          match final_flush video_upload_id save_interval analyzer
                  records_created db with
          | Raise e => (Raise e, db)
          | Ok (records_created, db) =>
              (Ok (mk_summary true None (Some (frame_count analyzer))
                     (Some (total_faces_detected analyzer)) records_created
                     (Some (get_cumulative_stats analyzer)) false), db)
          end
      end.

End Engine.

(** ** [simulate_processing]

    [random] is a stream of raw draws; [randint a b] maps the next one into
    [a..b], so that every value of the range is the outcome of some stream.
    An empty range raises, as in Python. *)

Definition Rng : Type := nat -> Z.

Definition Sim (A : Type) : Type := Rng -> result A * Rng.

Definition sim_bind {A B : Type} (m : Sim A) (k : A -> Sim B) : Sim B :=
  fun g =>
    match m g with
    | (Ok a, g') => k a g'
    | (Raise e, g') => (Raise e, g')
    end.

Definition sim_ret {A : Type} (a : A) : Sim A := fun g => (Ok a, g).

Notation "x <~ m ;; k" := (sim_bind m (fun x => k))
  (at level 61, m at next level, right associativity) : py_scope.

Definition randint (a b : Z) : Sim Z :=
  fun g =>
    if b <? a then (Raise ValueError, g)
    else (Ok (a + g 0%nat mod (b - a + 1)), fun n => g (S n)).

(** The record built in iteration [i] of [for i in range(num_records)]. *)
Definition simulate_record (video_upload_id : option Z) (i : Z)
  : Sim EngagementRecord :=
  total <~ randint 5 20 ;;
  attentive <~ randint 2 total ;;
  sleepy <~ randint 0 (total - attentive) ;;
  distracted <~ randint 0 (total - attentive - sleepy) ;;
  let neutral := total - attentive - sleepy - distracted in
  let engagement_pct :=
    if total >? 0 then (true_div attentive total * 100)%Q else 0%Q in
  sim_ret (mk_record video_upload_id total attentive sleepy distracted neutral
             engagement_pct (i * 30)).

Fixpoint simulate_loop (video_upload_id : option Z) (todo : nat) (i : Z)
  (records_created : Z) (db : DB) (g : Rng) : result Z * DB * Rng :=
  match todo with
  | O => (Ok records_created, db, g)
  | S todo' =>
      match simulate_record video_upload_id i g with
      | (Raise e, g') => (Raise e, db, g')
      | (Ok record, g') =>
          simulate_loop video_upload_id todo' (i + 1) (records_created + 1)
            (EngagementRecord_save record db) g'
      end
  end.

Definition simulate_processing (video_upload_id : option Z) (db : DB) (g : Rng)
  : result Summary * DB * Rng :=
  match randint 10 30 g with
  | (Raise e, g') => (Raise e, db, g')
  | (Ok num_records, g') =>
      match simulate_loop video_upload_id (Z.to_nat num_records) 0 0 db g' with
      | (Raise e, db', g'') => (Raise e, db', g'')
      | (Ok records_created, db', g'') =>
          (Ok (mk_summary true None None None records_created None true),
           db', g'')
      end
  end.

(** ** A reference platform

    An executable stand-in for OpenCV and NumPy, on which the model runs.
    A frame is the list of face regions a detector finds in it; box [i]
    crops region [i]. The mean is exact; the standard deviation is the
    square root of the exact variance, truncated to 26 fractional bits. *)

Definition sumZ (l : list Z) : Z := fold_right Z.add 0 l.

Definition ref_mean (a : ndarray) : result Q :=
  match data a with
  | [] => Raise (OtherError "mean of empty slice")
  | _ => Ok (true_div (sumZ (data a)) (Z.of_nat (List.length (data a))))
  end.

(** [n^2 * variance]: [n * sum x^2 - (sum x)^2]. *)
Definition scaled_variance (l : list Z) : Z :=
  Z.of_nat (List.length l) * sumZ (map (fun x => x * x) l) - sumZ l * sumZ l.

Definition ref_std (a : ndarray) : result Q :=
  match data a with
  | [] => Raise (OtherError "std of empty slice")
  | l =>
      let n := Z.of_nat (List.length l) in
      Ok (inject_Z (Z.sqrt (scaled_variance l * 4 ^ 26)) / inject_Z (n * 2 ^ 26))%Q
  end.

Definition empty_array : ndarray := mk_ndarray [0; 0] [].

Definition ref_boxes (g : list ndarray) : list Box :=
  map (fun i => (Z.of_nat i, 0, 0, 0)) (seq 0 (List.length g)).

Definition ref_crop (g : list ndarray) (b : Box) : ndarray :=
  let '(x, _, _, _) := b in nth (Z.to_nat x) g empty_array.

(** Face regions of 2 x 2 samples. *)
Definition bright_face : ndarray := mk_ndarray [2; 2] [60; 160; 60; 160].
Definition dim_face : ndarray := mk_ndarray [2; 2] [40; 60; 40; 60].
Definition turned_face : ndarray :=
  mk_ndarray [2; 4] [60; 160; 60; 160; 60; 160; 60; 160].

Definition attentive_frame : list ndarray := [bright_face; bright_face].
Definition sleepy_frame : list ndarray := [dim_face; dim_face].
Definition empty_frame : list ndarray := [].

Definition ref_videos (path : string) : Capture (list ndarray) :=
  if String.eqb path "attentive90.mp4" then
    mk_Capture true (repeat (Ok attentive_frame) 90)
  else if String.eqb path "sleepy45.mp4" then
    mk_Capture true (repeat (Ok sleepy_frame) 30 ++ repeat (Ok empty_frame) 15)
  else if String.eqb path "truncated.mp4" then
    mk_Capture true (repeat (Ok attentive_frame) 40
                     ++ Raise (OtherError "decoder error")
                     :: repeat (Ok attentive_frame) 50)
  else if String.eqb path "short.mp4" then
    mk_Capture true (repeat (Ok attentive_frame) 10)
  else mk_Capture false [].

Definition ref_exists (path : string) : bool :=
  negb (String.eqb path "missing.mp4").

Definition RefPlatform : Platform := {|
  Frame := list ndarray;
  Gray := list ndarray;
  CV2_AVAILABLE := true;
  os_path_exists := ref_exists;
  cascade_exists := true;
  cv2_VideoCapture := ref_videos;
  cv2_gray := fun f => Ok f;
  detectMultiScale := fun g _ => Ok (ref_boxes g);
  crop := ref_crop;
  np_mean := ref_mean;
  np_std := ref_std
|}.

(** A raw random stream for the simulation. *)
Definition ref_rng : Rng := fun n => Z.of_nat n * 7 + 3.

(** ** Vocabulary of the statements *)

(** Every dimension of the array is a length. *)
Definition nonneg_shape (a : ndarray) : Prop :=
  Forall (fun d => 0 <= d) (shape a).

(** The four rules on the three measurements, as [classify_behavior]
    evaluates them once the region is known to be non-empty. *)
Definition rules (brightness contrast aspect_ratio : Q) : Behavior :=
  if Qlt_bool brightness 80 && Qlt_bool contrast 30 then Sleepy
  else if Qlt_bool aspect_ratio 0.6 || Qlt_bool 1.4 aspect_ratio
  then Distracted
  else if Qlt_bool 100 brightness && Qlt_bool 40 contrast
          && (Qlt_bool 0.7 aspect_ratio && Qlt_bool aspect_ratio 1.3)
  then Attentive
  else Neutral.

(** The percentage invariant of the data model. *)
Definition pct_invariant (total attentive : Z) (pct : Q) : Prop :=
  (total > 0 -> (pct == true_div attentive total * 100)%Q)
  /\ (total = 0 -> (pct == 0)%Q).

Definition record_pct_invariant (r : EngagementRecord) : Prop :=
  pct_invariant (total_students r) (rec_attentive_count r)
    (engagement_percentage r).

(** Conservation: the four counts add up to the total. *)
Definition conserved (r : EngagementRecord) : Prop :=
  rec_attentive_count r + rec_sleepy_count r + rec_distracted_count r
  + rec_neutral_count r = total_students r.

Definition stats_conserved (s : Stats) : Prop :=
  st_attentive_count s + st_sleepy_count s + st_distracted_count s
  + st_neutral_count s = st_total_students s.

(** The record with another percentage passed at construction. *)
Definition with_percentage (r : EngagementRecord) (pct : Q) : EngagementRecord :=
  mk_record (video_upload_id r) (total_students r) (rec_attentive_count r)
    (rec_sleepy_count r) (rec_distracted_count r) (rec_neutral_count r)
    pct (frame_number r).

(** The tables that [save] builds, from the empty one. *)
Inductive saved_table : DB -> Prop :=
| saved_empty : saved_table []
| saved_row (r : EngagementRecord) (db : DB) :
    saved_table db -> saved_table (EngagementRecord_save r db).

(** What the simulation draws for one record. *)
Definition simulated_record (r : EngagementRecord) : Prop :=
  5 <= total_students r <= 20
  /\ 2 <= rec_attentive_count r <= total_students r
  /\ 0 <= rec_sleepy_count r /\ 0 <= rec_distracted_count r
  /\ 0 <= rec_neutral_count r
  /\ conserved r
  /\ (engagement_percentage r
      == true_div (rec_attentive_count r) (total_students r) * 100)%Q.

(** The records a call adds to the table all satisfy [Q]. *)
Definition adds_only (Q : EngagementRecord -> Prop) (db db' : DB) : Prop :=
  exists new : list EngagementRecord, db' = db ++ new /\ Forall Q new.

Section Vocabulary.

Context {P : Platform}.

(** A record [process_video] writes: an interval snapshot of some analyzer
    state, stamped with its frame counter, as [save] stores it. *)
Definition emitted (video_upload_id : option Z) (r : EngagementRecord) : Prop :=
  exists an : EngagementAnalyzer,
    r = stored (record_of_stats video_upload_id (get_current_stats an)
                  (frame_count an)).

(** The detector finds faces in [frame] and the classifier gives them the
    labels [labels], in order. *)
Definition frame_faces (cascade : bool) (min_size : Z * Z) (frame : Frame)
  (labels : list Behavior) : Prop :=
  exists (gray : Gray) (faces : list Box),
    cv2_gray frame = Ok gray
    /\ (if cascade then detectMultiScale gray min_size else Ok []) = Ok faces
    /\ Forall2 (fun box l => classify_behavior (Some (crop gray box)) = Ok l)
         faces labels.

End Vocabulary.

Definition count_labels (labels : list Behavior) : FrameCounts :=
  fold_left tally labels (mk_counts 0 0 0 0).

(** The effect of one loop pass on a frame with [n] faces tallied as [c],
    for a non-zero interval. *)
Definition advance (video_upload_id : option Z) (save_interval n : Z)
  (c : FrameCounts) (st : EngagementAnalyzer * Z * DB)
  : EngagementAnalyzer * Z * DB :=
  let '(analyzer, records_created, db) := st in
  let analyzer :=
    add_faces_detected (add_counts (incr_frame_count analyzer) c) n in
  if frame_count analyzer mod save_interval =? 0 then
    (reset_interval_stats analyzer, records_created + 1,
     EngagementRecord_save
       (record_of_stats video_upload_id (get_current_stats analyzer)
          (frame_count analyzer)) db)
  else (analyzer, records_created, db).

Fixpoint advance_n (video_upload_id : option Z) (save_interval n : Z)
  (c : FrameCounts) (k : nat) (st : EngagementAnalyzer * Z * DB)
  : EngagementAnalyzer * Z * DB :=
  match k with
  | O => st
  | S k' =>
      advance_n video_upload_id save_interval n c k'
        (advance video_upload_id save_interval n c st)
  end.

Definition exit_records (x : LoopExit) : Z :=
  match x with
  | Break _ rc => rc
  | Except _ rc => rc
  end.

(** ** Vocabulary of the further properties *)

Definition fc_total (c : FrameCounts) : Z :=
  fc_attentive c + fc_sleepy c + fc_distracted c + fc_neutral c.

(** A per-frame tally of [n] faces: no count is negative and they add up
    to [n]. *)
Definition counts_of (n : Z) (c : FrameCounts) : Prop :=
  0 <= fc_attentive c /\ 0 <= fc_sleepy c /\ 0 <= fc_distracted c
  /\ 0 <= fc_neutral c /\ fc_total c = n.

(** The interval and the cumulative counters of [an'] are those of [an]
    plus the tally [c]. *)
Definition grown_by (c : FrameCounts) (an an' : EngagementAnalyzer) : Prop :=
  attentive_count an' = attentive_count an + fc_attentive c
  /\ sleepy_count an' = sleepy_count an + fc_sleepy c
  /\ distracted_count an' = distracted_count an + fc_distracted c
  /\ neutral_count an' = neutral_count an + fc_neutral c
  /\ cum_attentive (cumulative_stats an')
     = cum_attentive (cumulative_stats an) + fc_attentive c
  /\ cum_sleepy (cumulative_stats an')
     = cum_sleepy (cumulative_stats an) + fc_sleepy c
  /\ cum_distracted (cumulative_stats an')
     = cum_distracted (cumulative_stats an) + fc_distracted c
  /\ cum_neutral (cumulative_stats an')
     = cum_neutral (cumulative_stats an) + fc_neutral c.

(** What a stored record of a run looks like: it carries the upload id,
    no count is negative, the attentive faces are among the total, and the
    percentage is between 0 and 100. *)
Definition record_ok (vid : option Z) (r : EngagementRecord) : Prop :=
  video_upload_id r = vid
  /\ 0 <= rec_attentive_count r /\ 0 <= rec_sleepy_count r
  /\ 0 <= rec_distracted_count r /\ 0 <= rec_neutral_count r
  /\ conserved r
  /\ (0 <= engagement_percentage r)%Q /\ (engagement_percentage r <= 100)%Q.

Definition cum_total (an : EngagementAnalyzer) : Z :=
  cum_attentive (cumulative_stats an) + cum_sleepy (cumulative_stats an)
  + cum_distracted (cumulative_stats an) + cum_neutral (cumulative_stats an).

(** Accounting between the table and the analyzer during a run that
    started on the table [db0]: every face counted so far is either in a
    stored record or in the open interval. *)
Definition account_inv (vid : option Z) (si : Z) (db0 : DB)
  (st : EngagementAnalyzer * Z * DB) : Prop :=
  let '(an, rc, db) := st in
  exists new : list EngagementRecord,
    db = db0 ++ new
    /\ rc = Z.of_nat (List.length new)
    /\ (0 <= attentive_count an /\ 0 <= sleepy_count an
        /\ 0 <= distracted_count an /\ 0 <= neutral_count an)
    /\ (frame_count an mod si = 0 ->
        attentive_count an = 0 /\ sleepy_count an = 0
        /\ distracted_count an = 0 /\ neutral_count an = 0)
    /\ sumZ (map rec_attentive_count new) + attentive_count an
       = cum_attentive (cumulative_stats an)
    /\ sumZ (map rec_sleepy_count new) + sleepy_count an
       = cum_sleepy (cumulative_stats an)
    /\ sumZ (map rec_distracted_count new) + distracted_count an
       = cum_distracted (cumulative_stats an)
    /\ sumZ (map rec_neutral_count new) + neutral_count an
       = cum_neutral (cumulative_stats an)
    /\ total_faces_detected an = cum_total an
    /\ Forall (record_ok vid) new.

(** The frame numbers [si, 2 si, ..., m si]. *)
Definition interval_marks (si : Z) (m : nat) : list Z :=
  map (fun i => Z.of_nat i * si) (seq 1 m).

(** After [j] frames of a run with a positive interval: the frame counter
    is [j] and the loop has stored one record at each multiple of the
    interval. *)
Definition frames_inv (si : Z) (db0 : DB) (j : nat)
  (st : EngagementAnalyzer * Z * DB) : Prop :=
  let '(an, rc, db) := st in
  exists new : list EngagementRecord,
    db = db0 ++ new
    /\ rc = Z.of_nat (List.length new)
    /\ frame_count an = Z.of_nat j
    /\ Z.of_nat (List.length new) = Z.of_nat j / si
    /\ map frame_number new = interval_marks si (List.length new).

(** The videos of the reference platform, and one that opens on an
    empty stream. *)
Definition aux_videos (path : string) : Capture (list ndarray) :=
  if String.eqb path "empty.mp4" then mk_Capture true []
  else ref_videos path.

(** The reference platform without its Haar cascade file. *)
Definition DegradedPlatform : Platform := {|
  Frame := list ndarray;
  Gray := list ndarray;
  CV2_AVAILABLE := true;
  os_path_exists := ref_exists;
  cascade_exists := false;
  cv2_VideoCapture := aux_videos;
  cv2_gray := fun f => Ok f;
  detectMultiScale := fun g _ => Ok (ref_boxes g);
  crop := ref_crop;
  np_mean := ref_mean;
  np_std := ref_std
|}.

(** A record of an interval in which no face was counted. *)
Definition blank_record (r : EngagementRecord) : Prop :=
  total_students r = 0 /\ rec_attentive_count r = 0 /\ rec_sleepy_count r = 0
  /\ rec_distracted_count r = 0 /\ rec_neutral_count r = 0
  /\ (engagement_percentage r == 0)%Q.

(** A run in which no face has been counted so far. *)
Definition idle_inv (db0 : DB) (st : EngagementAnalyzer * Z * DB) : Prop :=
  let '(an, rc, db) := st in
  attentive_count an = 0 /\ sleepy_count an = 0 /\ distracted_count an = 0
  /\ neutral_count an = 0 /\ cum_total an = 0 /\ total_faces_detected an = 0
  /\ exists new : list EngagementRecord,
       db = db0 ++ new /\ Forall blank_record new.

(** ** [VideoUpload] rows (models.py) and the background task (views.py)

    Of a [VideoUpload] row the task reads and writes the status, the
    [processed] flag and the frame count; [duration_seconds] takes an
    elapsed time and is left out, as the times are everywhere. *)

Record VideoUpload : Type := mk_video {
  vu_id : Z;
  processed : bool;
  processing_status : string;
  vu_total_frames : option Z
}.

(** [VideoUpload.objects.get(id=...)]: the row with this primary key, or
    [DoesNotExist]. *)
Definition VideoUpload_get (id : Z) (videos : list VideoUpload)
  : result VideoUpload :=
  match find (fun v => vu_id v =? id) videos with
  | Some v => Ok v
  | None => Raise (OtherError "VideoUpload matching query does not exist.")
  end.

(** [video_upload.save()]: the row with this primary key is overwritten,
    or inserted when there is none. *)
Definition VideoUpload_save (v : VideoUpload) (videos : list VideoUpload)
  : list VideoUpload :=
  if existsb (fun x => vu_id x =? vu_id v) videos
  then map (fun x => if vu_id x =? vu_id v then v else x) videos
  else videos ++ [v].

(** What the task works on: both tables and the random generator. *)
Record World : Type := mk_world {
  videos : list VideoUpload;
  records : DB;
  rng : Rng
}.

Definition with_status (v : VideoUpload) (status : string) : VideoUpload :=
  mk_video (vu_id v) (processed v) status (vu_total_frames v).

(** The outer [except Exception] of [process_video_async]: mark the row
    failed if it can be fetched, and swallow everything else. *)
Definition mark_failed (video_upload_id : Z) (w : World) : World :=
  match VideoUpload_get video_upload_id (videos w) with
  | Ok video_upload =>
      mk_world (VideoUpload_save (with_status video_upload "failed") (videos w))
        (records w) (rng w)
  | Raise _ => w
  end.

(** The update of the row from the run summary. *)
Definition apply_result (video_upload : VideoUpload) (result : Summary)
  : VideoUpload :=
  if success result then
    mk_video (vu_id video_upload) true "completed"
      (match total_frames result with
       | Some n => Some n
       | None => vu_total_frames video_upload
       end)
  else with_status video_upload "failed".

Section Views.

Context {P : Platform}.

(** [try: import cv2; result = process_video(...) except ImportError:
    result = simulate_processing(...)]. *)
Definition run_processing (video_upload_id : Z) (video_path : string)
  (w : World) : result Summary * World :=
  if CV2_AVAILABLE then
    let '(result, db) :=
      process_video video_path (Some video_upload_id) 30 (records w) in
    (result, mk_world (videos w) db (rng w))
  else
    let '(result, db, g) :=
      simulate_processing (Some video_upload_id) (records w) (rng w) in
    (result, mk_world (videos w) db g).

Definition process_video_async (video_upload_id : Z) (video_path : string)
  (w : World) : World :=
  match VideoUpload_get video_upload_id (videos w) with
  | Raise _ => mark_failed video_upload_id w
  | Ok video_upload =>
      let w :=
        mk_world
          (VideoUpload_save (with_status video_upload "processing") (videos w))
          (records w) (rng w) in
      match run_processing video_upload_id video_path w with
      | (Raise _, w) => mark_failed video_upload_id w
      | (Ok result, w) =>
          match VideoUpload_get video_upload_id (videos w) with
          | Raise _ => mark_failed video_upload_id w
          | Ok video_upload =>
              mk_world
                (VideoUpload_save (apply_result video_upload result) (videos w))
                (records w) (rng w)
          end
      end
  end.

End Views.

(** The engagement filter of [engagement_list]: an absent or empty
    parameter, or an unknown level, leaves the records as they are. *)
Definition filter_by_engagement (engagement_filter : option string)
  (records : DB) : DB :=
  match engagement_filter with
  | None => records
  | Some level =>
      if String.eqb level "" then records
      else if String.eqb level "high" then
        filter (fun r => Qle_bool 70 (engagement_percentage r)) records
      else if String.eqb level "medium" then
        filter (fun r => Qle_bool 40 (engagement_percentage r)
                         && Qlt_bool (engagement_percentage r) 70) records
      else if String.eqb level "low" then
        filter (fun r => Qlt_bool (engagement_percentage r) 40) records
      else records
  end.

(** ** Upload names (forms.py, models.py)

    A [str] is the list of its code points, here below 256. *)

(** [s.split(sep)] for a separator of one character. *)
Fixpoint split_on (sep : ascii) (s : string) : list string :=
  match s with
  | EmptyString => [EmptyString]
  | String c s' =>
      if Ascii.eqb c sep then EmptyString :: split_on sep s'
      else match split_on sep s' with
           | [] => [String c EmptyString]
           | p :: ps => String c p :: ps
           end
  end.

(** [l[-1]] on a list of strings that is not empty. *)
Definition last_item (l : list string) : string := last l EmptyString.

(** [c.lower()] on the code points below 256: the letters A-Z and the
    capital letters of Latin-1. *)
Definition lower_char (c : ascii) : ascii :=
  let n := nat_of_ascii c in
  if ((65 <=? n) && (n <=? 90))%nat then ascii_of_nat (n + 32)
  else if ((192 <=? n) && (n <=? 222) && negb (n =? 215))%nat
  then ascii_of_nat (n + 32)
  else c.

Fixpoint lower (s : string) : string :=
  match s with
  | EmptyString => EmptyString
  | String c s' => String (lower_char c) (lower s')
  end.

Record UploadedFile : Type := mk_file {
  file_name : string;
  file_size : Z
}.

Inductive cleaned (A : Type) : Type :=
| Cleaned (a : A)
| ValidationError (msg : string).
Arguments Cleaned {A} a.
Arguments ValidationError {A} msg.

Definition allowed_extensions : list string :=
  ["mp4"; "avi"; "mov"; "mkv"; "flv"; "wmv"]%string.

Definition max_size : Z := 500 * 1024 * 1024.

(** [x in l] on strings. *)
Definition string_in (x : string) (l : list string) : bool :=
  existsb (String.eqb x) l.

(** [VideoUploadForm.clean_video_file]; a file object is falsy when its
    name is empty. *)
Definition clean_video_file (video_file : option UploadedFile)
  : cleaned (option UploadedFile) :=
  match video_file with
  | None => Cleaned None
  | Some f =>
      if String.eqb (file_name f) "" then Cleaned (Some f)
      else
        let ext := lower (last_item (split_on "." (file_name f))) in
        if negb (string_in ext allowed_extensions) then
          ValidationError
            "Unsupported file format. Allowed formats: mp4, avi, mov, mkv, flv, wmv"
        else if file_size f >? max_size then
          ValidationError "Video file is too large. Maximum size is 500MB."
        else Cleaned (Some f)
  end.

(** [os.path.join(a, b)] on POSIX paths. *)
Definition os_path_join (a b : string) : string :=
  match b with
  | String "/" _ => b
  | _ =>
      if String.eqb a "" then b
      else match String.get (String.length a - 1) a with
           | Some "/"%char => a ++ b
           | _ => a ++ "/" ++ b
           end
  end%string.

(** [video_upload_path(instance, filename)], with [stamp] the text of
    [instance.uploaded_at.strftime('%Y%m%d_%H%M%S')]. *)
Definition video_upload_path (stamp filename : string) : string :=
  let ext := last_item (split_on "." filename) in
  let filename := (stamp ++ "." ++ ext)%string in
  os_path_join "videos/" filename.

(** The string has no occurrence of the character. *)
Fixpoint free_of (sep : ascii) (s : string) : bool :=
  match s with
  | EmptyString => true
  | String c s' => negb (Ascii.eqb c sep) && free_of sep s'
  end.

(** One pending upload, no record yet. *)
Definition ref_world : World :=
  mk_world [mk_video 3 true "completed" (Some 12);
            mk_video 7 false "pending" None] [] ref_rng.

(** The record of the open interval of [an], as the end of the stream
    stores it: the four counters, their sum as the total, the frame
    counter, and the percentage of the attentive faces. *)
Definition final_record (vid : option Z) (an : EngagementAnalyzer)
  (r : EngagementRecord) : Prop :=
  let tally :=
    attentive_count an + sleepy_count an + distracted_count an
    + neutral_count an in
  video_upload_id r = vid
  /\ total_students r = tally
  /\ rec_attentive_count r = attentive_count an
  /\ rec_sleepy_count r = sleepy_count an
  /\ rec_distracted_count r = distracted_count an
  /\ rec_neutral_count r = neutral_count an
  /\ frame_number r = frame_count an
  /\ (0 < tally ->
      (engagement_percentage r == true_div (attentive_count an) tally * 100)%Q).

(** No face has been counted since the last record. *)
Definition quiet_inv (st : EngagementAnalyzer * Z * DB) : Prop :=
  let '(an, rc, db) := st in
  attentive_count an = 0 /\ sleepy_count an = 0 /\ distracted_count an = 0
  /\ neutral_count an = 0.

(** * Properties *)

Lemma Qlt_bool_iff (x y : Q) : Qlt_bool x y = true <-> (x < y)%Q.
Proof. unfold Qlt_bool, Qlt. apply Z.ltb_lt. Qed.

Lemma Qlt_bool_false_iff (x y : Q) : Qlt_bool x y = false <-> ~ (x < y)%Q.
Proof.
  rewrite <- Qlt_bool_iff. destruct (Qlt_bool x y); split; congruence.
Qed.

(** ** The behaviour classifier *)

Lemma size_zero_dim (l : list Z) : In 0 l -> fold_right Z.mul 1 l = 0.
Proof.
  induction l as [|d l IH]; simpl; [tauto|].
  intros [-> | H]; [reflexivity|]. rewrite (IH H). apply Z.mul_0_r.
Qed.

Lemma nonempty_dims (a : ndarray) (h w : Z) (rest : list Z) :
  nonneg_shape a -> size a <> 0 -> shape a = h :: w :: rest -> 0 < h /\ 0 < w.
Proof.
  unfold nonneg_shape, size. intros Hpos Hsz Hsh. rewrite Hsh in *.
  inversion Hpos as [|? ? Hh Hrest]; subst.
  inversion Hrest as [|? ? Hw _]; subst.
  simpl in Hsz. split.
  - destruct (Z.eq_dec h 0) as [->|]; [now rewrite Z.mul_0_l in Hsz | lia].
  - destruct (Z.eq_dec w 0) as [->|]; [|lia].
    now rewrite Z.mul_0_l, Z.mul_0_r in Hsz.
Qed.

Section Classifier.

Context {P : Platform}.

Lemma classify_behavior_measured (a : ndarray) (h w : Z) (rest : list Z)
  (brightness contrast : Q) :
  nonneg_shape a -> size a <> 0 -> shape a = h :: w :: rest ->
  np_mean a = Ok brightness -> np_std a = Ok contrast ->
  classify_behavior (Some a) = Ok (rules brightness contrast (true_div w h)).
Proof.
  intros Hpos Hsz Hsh Hm Hs.
  destruct (nonempty_dims a h w rest Hpos Hsz Hsh) as [Hh Hw].
  unfold classify_behavior, classify_body, unpack_shape2.
  apply Z.eqb_neq in Hsz. rewrite Hsz, Hsh. cbn [firstn bind].
  replace (h =? 0) with false by (symmetry; apply Z.eqb_neq; lia).
  replace (w =? 0) with false by (symmetry; apply Z.eqb_neq; lia).
  cbn [orb]. rewrite Hm, Hs. cbn [bind].
  replace (h >? 0) with true by (symmetry; apply Z.gtb_lt; lia).
  unfold rules, try_except.
  repeat match goal with |- context [if ?c then _ else _] => destruct c end;
    reflexivity.
Qed.

Lemma rules_sleepy (b c r : Q) :
  (b < 80)%Q -> (c < 30)%Q -> rules b c r = Sleepy.
Proof.
  intros Hb Hc. unfold rules.
  apply Qlt_bool_iff in Hb, Hc. now rewrite Hb, Hc.
Qed.

Lemma not_sleepy_guard (b c : Q) :
  ~ ((b < 80)%Q /\ (c < 30)%Q) -> Qlt_bool b 80 && Qlt_bool c 30 = false.
Proof.
  intros H. apply andb_false_iff.
  destruct (Qlt_bool b 80) eqn:Eb; [|now left].
  destruct (Qlt_bool c 30) eqn:Ec; [|now right].
  exfalso. apply H. split; now apply Qlt_bool_iff.
Qed.

Lemma rules_distracted (b c r : Q) :
  ~ ((b < 80)%Q /\ (c < 30)%Q) -> (r < 0.6)%Q \/ (1.4 < r)%Q ->
  rules b c r = Distracted.
Proof.
  intros Hs Hr. unfold rules. rewrite (not_sleepy_guard _ _ Hs).
  replace (Qlt_bool r 0.6 || Qlt_bool 1.4 r) with true; [reflexivity|].
  symmetry. apply orb_true_iff.
  destruct Hr as [Hr | Hr]; [left | right]; now apply Qlt_bool_iff.
Qed.

Lemma not_distracted_guard (r : Q) :
  ~ ((r < 0.6)%Q \/ (1.4 < r)%Q) -> Qlt_bool r 0.6 || Qlt_bool 1.4 r = false.
Proof.
  intros H. apply orb_false_iff.
  split; apply Qlt_bool_false_iff; intros H'; apply H; [now left | now right].
Qed.

Lemma rules_attentive (b c r : Q) :
  ~ ((b < 80)%Q /\ (c < 30)%Q) -> ~ ((r < 0.6)%Q \/ (1.4 < r)%Q) ->
  (100 < b)%Q -> (40 < c)%Q -> (0.7 < r)%Q -> (r < 1.3)%Q ->
  rules b c r = Attentive.
Proof.
  intros Hs Hd Hb Hc Hr1 Hr2. unfold rules.
  rewrite (not_sleepy_guard _ _ Hs), (not_distracted_guard _ Hd).
  apply Qlt_bool_iff in Hb, Hc, Hr1, Hr2. now rewrite Hb, Hc, Hr1, Hr2.
Qed.

Lemma rules_neutral (b c r : Q) :
  ~ ((b < 80)%Q /\ (c < 30)%Q) -> ~ ((r < 0.6)%Q \/ (1.4 < r)%Q) ->
  ~ ((100 < b)%Q /\ (40 < c)%Q /\ (0.7 < r)%Q /\ (r < 1.3)%Q) ->
  rules b c r = Neutral.
Proof.
  intros Hs Hd Ha. unfold rules.
  rewrite (not_sleepy_guard _ _ Hs), (not_distracted_guard _ Hd).
  destruct (Qlt_bool 100 b) eqn:E1; [|reflexivity].
  destruct (Qlt_bool 40 c) eqn:E2; [|reflexivity].
  destruct (Qlt_bool 0.7 r) eqn:E3; [|reflexivity].
  destruct (Qlt_bool r 1.3) eqn:E4; [|reflexivity].
  exfalso. apply Ha. repeat split; now apply Qlt_bool_iff.
Qed.

(** C2. On a non-empty region whose mean is [brightness], whose standard
    deviation is [contrast] and whose shape is [h] by [w], the label is that
    of the first rule that matches, in the order Sleepy, Distracted,
    Attentive, Neutral; brightness 50, contrast 10, ratio 1.0 gives Sleepy
    and brightness 110, contrast 50, ratio 2.0 gives Distracted. *)
Theorem classify_behavior_first_match (a : ndarray) (h w : Z) (rest : list Z)
  (brightness contrast : Q) :
  nonneg_shape a -> size a <> 0 -> shape a = h :: w :: rest ->
  np_mean a = Ok brightness -> np_std a = Ok contrast ->
  let aspect_ratio := true_div w h in
  let sleepy := (brightness < 80 /\ contrast < 30)%Q in
  let distracted := (aspect_ratio < 0.6 \/ 1.4 < aspect_ratio)%Q in
  let attentive :=
    (100 < brightness /\ 40 < contrast
     /\ 0.7 < aspect_ratio /\ aspect_ratio < 1.3)%Q in
  (sleepy -> classify_behavior (Some a) = Ok Sleepy)
  /\ (~ sleepy -> distracted -> classify_behavior (Some a) = Ok Distracted)
  /\ (~ sleepy -> ~ distracted -> attentive ->
      classify_behavior (Some a) = Ok Attentive)
  /\ (~ sleepy -> ~ distracted -> ~ attentive ->
      classify_behavior (Some a) = Ok Neutral)
  /\ ((brightness == 50)%Q -> (contrast == 10)%Q -> (aspect_ratio == 1)%Q ->
      classify_behavior (Some a) = Ok Sleepy)
  /\ ((brightness == 110)%Q -> (contrast == 50)%Q -> (aspect_ratio == 2)%Q ->
      classify_behavior (Some a) = Ok Distracted).
Proof.
  intros Hpos Hsz Hsh Hm Hs aspect_ratio sleepy distracted attentive.
  rewrite (classify_behavior_measured a h w rest _ _ Hpos Hsz Hsh Hm Hs).
  fold aspect_ratio. subst sleepy distracted attentive.
  repeat split.
  - intros [Hb Hc]. f_equal. now apply rules_sleepy.
  - intros Hn Hd. f_equal. now apply rules_distracted.
  - intros Hn Hd (Hb & Hc & Hr1 & Hr2). f_equal. now apply rules_attentive.
  - intros Hn Hd Ha. f_equal. now apply rules_neutral.
  - intros Hb Hc _. f_equal. apply rules_sleepy; [rewrite Hb | rewrite Hc]; lra.
  - intros Hb Hc Hr. f_equal. apply rules_distracted.
    + intros [Hb' _]. rewrite Hb in Hb'. lra.
    + right. rewrite Hr. lra.
Qed.

(** C3. [classify_behavior] returns a label on every region, missing or
    not, whatever NumPy returns or raises on it; a missing region, a region
    of size zero and a region with a zero dimension give Neutral, and so
    does a region on which the measurements raise. *)
Theorem classify_behavior_total (face_region : option ndarray) :
  (exists b : Behavior, classify_behavior face_region = Ok b)
  /\ (face_region = None -> classify_behavior face_region = Ok Neutral)
  /\ (forall a, face_region = Some a -> size a = 0 ->
      classify_behavior face_region = Ok Neutral)
  /\ (forall a, face_region = Some a -> In 0 (shape a) ->
      classify_behavior face_region = Ok Neutral)
  /\ (forall a e, face_region = Some a -> classify_body a = Raise e ->
      classify_behavior face_region = Ok Neutral).
Proof.
  assert (Hz : forall a, size a = 0 -> classify_behavior (Some a) = Ok Neutral).
  { intros a Ha. unfold classify_behavior. now rewrite Ha. }
  repeat split.
  - destruct face_region as [a|]; [|now exists Neutral].
    unfold classify_behavior. destruct (size a =? 0); [now exists Neutral|].
    destruct (classify_body a) as [b|e]; cbn [try_except]; eauto.
  - now intros ->.
  - intros a -> Ha. now apply Hz.
  - intros a -> Ha. apply Hz. now apply size_zero_dim.
  - intros a e -> He. unfold classify_behavior. rewrite He.
    now destruct (size a =? 0).
Qed.

End Classifier.

(** ** The processing loop *)

Section Orchestrator.

Context {P : Platform}.

Lemma classify_faces_labels (gray : Gray) (faces : list Box)
  (labels : list Behavior) :
  Forall2 (fun box l => classify_behavior (Some (crop gray box)) = Ok l)
    faces labels ->
  forall c, classify_faces gray faces c = Ok (fold_left tally labels c).
Proof.
  induction 1 as [|box l faces labels Hl _ IH]; intros c;
    cbn [classify_faces fold_left].
  - reflexivity.
  - rewrite Hl. cbn [bind]. apply IH.
Qed.

Lemma process_frame_faces (an : EngagementAnalyzer) (frame : Frame)
  (labels : list Behavior) :
  frame_faces (face_cascade an) (min_face_size an) frame labels ->
  process_frame an (Some frame)
  = Ok (Z.of_nat (List.length labels), count_labels labels,
        add_counts an (count_labels labels)).
Proof.
  intros (gray & faces & Hg & Hd & Hl). unfold process_frame.
  rewrite Hg. cbn [bind]. rewrite Hd. cbn [bind].
  rewrite (classify_faces_labels _ _ _ Hl). cbn [bind].
  rewrite (Forall2_length Hl). reflexivity.
Qed.

Lemma loop_body_faces (vid : option Z) (si : Z) (frame : Frame)
  (labels : list Behavior) (an : EngagementAnalyzer) (rc : Z) (db : DB) :
  si <> 0 ->
  frame_faces (face_cascade an) (min_face_size an) frame labels ->
  loop_body vid si (Ok frame) an rc db
  = Ok (advance vid si (Z.of_nat (List.length labels)) (count_labels labels)
          (an, rc, db)).
Proof.
  intros Hsi Hf. unfold loop_body. cbn [bind].
  rewrite (process_frame_faces (incr_frame_count an) frame labels Hf).
  cbn [bind]. unfold py_mod.
  apply Z.eqb_neq in Hsi. rewrite Hsi. cbn [bind]. unfold advance.
  destruct (_ mod si =? 0); reflexivity.
Qed.

Lemma advance_config (vid : option Z) (si n : Z) (c : FrameCounts)
  (an : EngagementAnalyzer) (rc : Z) (db : DB) :
  let an' := fst (fst (advance vid si n c (an, rc, db))) in
  face_cascade an' = face_cascade an /\ min_face_size an' = min_face_size an.
Proof.
  unfold advance. destruct (_ mod si =? 0); split; reflexivity.
Qed.

(** A run of frames that all show the same labels. *)
Lemma video_loop_block (vid : option Z) (si : Z) (labels : list Behavior)
  (frames : list Frame) :
  si <> 0 ->
  forall (rest : list (result Frame)) (an : EngagementAnalyzer) (rc : Z)
         (db : DB),
  Forall (fun f => frame_faces (face_cascade an) (min_face_size an) f labels)
    frames ->
  video_loop vid si (map Ok frames ++ rest) an rc db
  = let '(an', rc', db') :=
      advance_n vid si (Z.of_nat (List.length labels)) (count_labels labels)
        (List.length frames) (an, rc, db) in
    video_loop vid si rest an' rc' db'.
Proof.
  intros Hsi. induction frames as [|f frames IH]; intros rest an rc db Hall.
  - reflexivity.
  - inversion Hall as [|? ? Hf Hrest]; subst.
    cbn [map app video_loop List.length advance_n].
    rewrite (loop_body_faces vid si f labels an rc db Hsi Hf).
    pose proof (advance_config vid si (Z.of_nat (List.length labels))
                  (count_labels labels) an rc db) as Hc.
    destruct (advance vid si _ _ (an, rc, db)) as [[an1 rc1] db1].
    cbn [fst] in Hc. destruct Hc as [Hc1 Hc2].
    apply IH. rewrite Hc1, Hc2. exact Hrest.
Qed.

(** Each pass appends at most one record and counts it. *)
Lemma loop_body_extends (vid : option Z) (si : Z) (rd : result Frame)
  (an an' : EngagementAnalyzer) (rc rc' : Z) (db db' : DB) :
  loop_body vid si rd an rc db = Ok (an', rc', db') ->
  exists new : list EngagementRecord,
    db' = db ++ new /\ rc' = rc + Z.of_nat (List.length new)
    /\ Forall (emitted vid) new.
Proof.
  unfold loop_body. destruct rd as [frame|e]; cbn [bind]; [|discriminate].
  destruct (process_frame _ _) as [[[n c] an1]|e]; cbn [bind]; [|discriminate].
  destruct (py_mod _ _) as [m|e]; cbn [bind]; [|discriminate].
  destruct (m =? 0); intros H; inversion H; subst; clear H.
  - eexists [_]. unfold EngagementRecord_save.
    split; [reflexivity|]. split; [reflexivity|].
    constructor; [|constructor].
    exists (add_faces_detected an1 n). reflexivity.
  - exists []. rewrite app_nil_r. repeat split; [simpl; lia | constructor].
Qed.

Lemma video_loop_extends (vid : option Z) (si : Z) (rds : list (result Frame)) :
  forall (an : EngagementAnalyzer) (rc : Z) (db : DB) (x : LoopExit) (db' : DB),
  video_loop vid si rds an rc db = (x, db') ->
  exists new : list EngagementRecord,
    db' = db ++ new /\ exit_records x = rc + Z.of_nat (List.length new)
    /\ Forall (emitted vid) new.
Proof.
  induction rds as [|rd rds IH]; intros an rc db x db' H; cbn [video_loop] in H.
  - inversion H; subst. exists []. rewrite app_nil_r.
    repeat split; [simpl; lia | constructor].
  - destruct (loop_body vid si rd an rc db) as [[[an1 rc1] db1]|e] eqn:Hb.
    + destruct (loop_body_extends _ _ _ _ _ _ _ _ _ Hb) as (n1 & -> & -> & F1).
      destruct (IH _ _ _ _ _ H) as (n2 & -> & Hx & F2).
      exists (n1 ++ n2). rewrite app_assoc, length_app, Forall_app.
      repeat split; try assumption. lia.
    + inversion H; subst. exists []. rewrite app_nil_r.
      repeat split; [simpl; lia | constructor].
Qed.

(** The loop over a prefix, then over what follows it. *)
Lemma video_loop_app (vid : option Z) (si : Z) (pre rest : list (result Frame)) :
  forall (an : EngagementAnalyzer) (rc : Z) (db : DB),
  video_loop vid si (pre ++ rest) an rc db
  = match video_loop vid si pre an rc db with
    | (Break an' rc', db') => video_loop vid si rest an' rc' db'
    | (Except e rc', db') => (Except e rc', db')
    end.
Proof.
  induction pre as [|rd pre IH]; intros an rc db; cbn [app video_loop].
  - reflexivity.
  - destruct (loop_body vid si rd an rc db) as [[[an1 rc1] db1]|e];
      [apply IH | reflexivity].
Qed.

Lemma final_flush_extends (vid : option Z) (si : Z) (an : EngagementAnalyzer)
  (rc rc' : Z) (db db' : DB) :
  final_flush vid si an rc db = Ok (rc', db') ->
  exists new : list EngagementRecord,
    db' = db ++ new /\ rc' = rc + Z.of_nat (List.length new)
    /\ Forall (emitted vid) new.
Proof.
  unfold final_flush. destruct (py_mod _ _) as [m|e]; cbn [bind]; [|discriminate].
  destruct (negb (m =? 0)); [destruct (_ >? 0)|];
    intros H; inversion H; subst; clear H;
    try (exists []; rewrite app_nil_r;
         repeat split; [simpl; lia | constructor]).
  eexists [_]. unfold EngagementRecord_save.
  repeat split. constructor; [|constructor]. now eexists.
Qed.

(** Whatever [process_video] does, the table only grows, by records it
    emitted, and a returned summary counts them. *)
Lemma process_video_extends (path : string) (vid : option Z) (si : Z)
  (db db' : DB) (res : result Summary) :
  process_video path vid si db = (res, db') ->
  exists new : list EngagementRecord,
    db' = db ++ new /\ Forall (emitted vid) new
    /\ (forall s, res = Ok s -> records_created s = Z.of_nat (List.length new)).
Proof.
  unfold process_video.
  assert (Hnil : forall msg, (Ok (failed msg 0), db) = (res, db') ->
    exists new : list EngagementRecord,
      db' = db ++ new /\ Forall (emitted vid) new
      /\ (forall s, res = Ok s ->
          records_created s = Z.of_nat (List.length new))).
  { intros msg H. inversion H; subst. exists []. rewrite app_nil_r.
    repeat split; [constructor|]. intros s Hs. now inversion Hs. }
  destruct (negb CV2_AVAILABLE); [apply Hnil|].
  destruct (negb (os_path_exists path)); [apply Hnil|].
  destruct (negb (isOpened _)); [apply Hnil|].
  destruct (video_loop _ _ _ _ _ _) as [[an rc|e rc] db1] eqn:Hl;
    destruct (video_loop_extends _ _ _ _ _ _ _ _ Hl) as (n1 & -> & Hrc & F1);
    cbn [exit_records] in Hrc.
  - destruct (final_flush _ _ _ _ _) as [[rc2 db2]|e] eqn:Hf.
    + destruct (final_flush_extends _ _ _ _ _ _ _ Hf) as (n2 & -> & -> & F2).
      intros H; inversion H; subst. exists (n1 ++ n2).
      rewrite app_assoc, length_app, Forall_app. repeat split; try assumption.
      intros s Hs; inversion Hs; subst. cbn [records_created]. lia.
    + intros H; inversion H; subst. exists n1. repeat split; [assumption|].
      intros s Hs; discriminate.
  - intros H; inversion H; subst. exists n1. repeat split; [assumption|].
    intros s Hs; inversion Hs; subst. cbn [records_created failed]. lia.
Qed.

End Orchestrator.

(** ** Outcomes of a run *)

Section Runs.

Context {P : Platform}.

(** What [process_video] does once the capture is open. *)
Lemma process_video_opened (path : string) (vid : option Z) (si : Z) (db : DB) :
  CV2_AVAILABLE = true -> os_path_exists path = true ->
  isOpened (cv2_VideoCapture path) = true ->
  process_video path vid si db
  = match video_loop vid si (reads (cv2_VideoCapture path))
            (EngagementAnalyzer_init si (30, 30)) 0 db with
    | (Except e rc, db1) => (Ok (failed (str e) rc), db1)
    | (Break an rc, db1) =>
        match final_flush vid si an rc db1 with
        | Raise e => (Raise e, db1)
        | Ok (rc', db') =>
            (Ok (mk_summary true None (Some (frame_count an))
                   (Some (total_faces_detected an)) rc'
                   (Some (get_cumulative_stats an)) false), db')
        end
    end.
Proof.
  intros Hcv Hex Hop. unfold process_video. rewrite Hcv, Hex, Hop.
  reflexivity.
Qed.

(** C6. When the path does not exist or the capture does not open,
    [process_video] returns a summary with [success = False], a non-empty
    error text and [records_created = 0], and the table is as it was. *)
Theorem process_video_source_failure (path : string) (vid : option Z) (si : Z)
  (db : DB) :
  os_path_exists path = false \/ isOpened (cv2_VideoCapture path) = false ->
  exists (s : Summary) (msg : string),
    process_video path vid si db = (Ok s, db)
    /\ success s = false /\ error s = Some msg /\ msg <> ""%string
    /\ records_created s = 0.
Proof.
  intros H. unfold process_video.
  destruct CV2_AVAILABLE; cbn [negb].
  - destruct (os_path_exists path) eqn:Hex; cbn [negb].
    + destruct H as [H | H]; [discriminate|]. rewrite H. cbn [negb].
      eexists _, _. repeat split. discriminate.
    + eexists _, _. repeat split. discriminate.
  - eexists _, _. repeat split. discriminate.
Qed.


(** The decision at end of stream. *)
Lemma final_flush_cases (vid : option Z) (si : Z) (an : EngagementAnalyzer)
  (rc : Z) (db : DB) :
  si <> 0 ->
  let stats := get_current_stats an in
  let pending := frame_count an mod si <> 0 /\ st_total_students stats > 0 in
  (pending ->
   final_flush vid si an rc db
   = Ok (rc + 1, db ++ [stored (record_of_stats vid stats (frame_count an))]))
  /\ (~ pending -> final_flush vid si an rc db = Ok (rc, db)).
Proof.
  intros Hsi stats pending. subst pending. unfold final_flush, py_mod.
  apply Z.eqb_neq in Hsi. rewrite Hsi. cbn [bind]. fold stats.
  destruct (frame_count an mod si =? 0) eqn:Hm; cbn [negb].
  - apply Z.eqb_eq in Hm. split; [intros [H _]; contradiction | reflexivity].
  - apply Z.eqb_neq in Hm. destruct (st_total_students stats >? 0) eqn:Ht.
    + split; [reflexivity|]. intros H. exfalso. apply H.
      split; [assumption|]. apply Z.gtb_lt in Ht. lia.
    + split; [|reflexivity]. intros [_ H]. exfalso.
      assert (Hn : (st_total_students stats >? 0) = true)
        by (apply Z.gtb_lt; lia).
      congruence.
Qed.

(** Ninety frames of two Attentive faces from the start of a run. *)
Lemma attentive_intervals (vid : option Z) (ms : Z * Z) (fc : bool) (db : DB) :
  advance_n vid 30 2 (count_labels [Attentive; Attentive]) 90
    (mk_analyzer 30 ms fc 0 0 0 0 0 0 (mk_cum 0 0 0 0), 0, db)
  = (mk_analyzer 30 ms fc 90 180 0 0 0 0 (mk_cum 180 0 0 0), 3,
     ((db ++ [mk_record vid 60 60 0 0 0 (true_div 60 60 * 100)%Q 30])
      ++ [mk_record vid 60 60 0 0 0 (true_div 60 60 * 100)%Q 60])
     ++ [mk_record vid 60 60 0 0 0 (true_div 60 60 * 100)%Q 90]).
Proof. vm_compute. reflexivity. Qed.

(** C1, as the code has it. On 90 frames that each show two faces, both
    Attentive, with an interval of 30, [process_video] writes exactly three
    records; each carries the tally of its 30 frames, [total_students = 60]
    and [attentive_count = 60], and an engagement of 100. *)
Theorem process_video_attentive_run (path : string) (vid : option Z) (db : DB)
  (frames : list Frame) :
  CV2_AVAILABLE = true -> os_path_exists path = true ->
  isOpened (cv2_VideoCapture path) = true ->
  reads (cv2_VideoCapture path) = map Ok frames ->
  List.length frames = 90%nat ->
  Forall (fun f => frame_faces (CV2_AVAILABLE && cascade_exists) (30, 30) f
                     [Attentive; Attentive]) frames ->
  exists (s : Summary) (r1 r2 r3 : EngagementRecord),
    process_video path vid 30 db = (Ok s, db ++ [r1; r2; r3])
    /\ success s = true /\ records_created s = 3
    /\ Forall (fun r => total_students r = 60 /\ rec_attentive_count r = 60
                        /\ (engagement_percentage r == 100)%Q) [r1; r2; r3]
    /\ map frame_number [r1; r2; r3] = [30; 60; 90].
Proof.
  intros Hcv Hex Hop Hrd Hlen Hall.
  rewrite (process_video_opened path vid 30 db Hcv Hex Hop), Hrd.
  rewrite <- (app_nil_r (map Ok frames)). unfold EngagementAnalyzer_init.
  rewrite (video_loop_block vid 30 [Attentive; Attentive] frames) by
    (try exact Hall; discriminate).
  rewrite Hlen. cbn [List.length Z.of_nat Pos.of_succ_nat Pos.succ].
  rewrite attentive_intervals. cbn [video_loop].
  rewrite <- !app_assoc. cbn [app].
  eexists _, _, _, _. split; [reflexivity|].
  repeat split; repeat constructor; reflexivity.
Qed.

End Runs.

(** ** The simulation *)

Lemma randint_range (a b : Z) (g : Rng) :
  a <= b ->
  exists x : Z,
    randint a b g = (Ok x, fun n => g (S n)) /\ a <= x <= b.
Proof.
  intros Hab. unfold randint.
  replace (b <? a) with false by (symmetry; apply Z.ltb_ge; lia).
  eexists. split; [reflexivity|].
  pose proof (Z.mod_pos_bound (g 0%nat) (b - a + 1)). lia.
Qed.

Lemma simulate_record_draw (vid : option Z) (i : Z) (g : Rng) :
  exists (r : EngagementRecord) (g' : Rng),
    simulate_record vid i g = (Ok r, g')
    /\ simulated_record (stored r) /\ video_upload_id r = vid
    /\ frame_number r = i * 30.
Proof.
  unfold simulate_record, sim_bind.
  destruct (randint_range 5 20 g) as (total & -> & Ht); [lia|].
  destruct (randint_range 2 total (fun n => g (S n))) as (att & -> & Ha); [lia|].
  destruct (randint_range 0 (total - att) (fun n => g (S (S n))))
    as (sl & -> & Hs); [lia|].
  destruct (randint_range 0 (total - att - sl) (fun n => g (S (S (S n)))))
    as (di & -> & Hd); [lia|].
  unfold sim_ret. eexists _, _. split; [reflexivity|].
  unfold simulated_record, conserved, stored. cbn.
  replace (total >? 0) with true by (symmetry; apply Z.gtb_lt; lia).
  repeat split; try lia.
Qed.

Lemma simulate_loop_records (vid : option Z) (todo : nat) :
  forall (i rc : Z) (db : DB) (g : Rng),
  exists (new : list EngagementRecord) (g' : Rng),
    simulate_loop vid todo i rc db g
    = (Ok (rc + Z.of_nat (List.length new)), db ++ new, g')
    /\ List.length new = todo /\ Forall simulated_record new.
Proof.
  induction todo as [|todo IH]; intros i rc db g; cbn [simulate_loop].
  - exists [], g. rewrite app_nil_r, Z.add_0_r. repeat split. constructor.
  - destruct (simulate_record_draw vid i g) as (r & g1 & -> & Hr & _).
    destruct (IH (i + 1) (rc + 1) (EngagementRecord_save r db) g1)
      as (new & g2 & -> & Hlen & Hall).
    exists (stored r :: new), g2. unfold EngagementRecord_save.
    rewrite <- app_assoc. cbn [app List.length]. repeat split.
    + replace (rc + Z.of_nat (S (List.length new)))
        with (rc + 1 + Z.of_nat (List.length new)) by lia.
      reflexivity.
    + now f_equal.
    + now constructor.
Qed.

Lemma simulate_processing_records (vid : option Z) (db : DB) (g : Rng) :
  exists (s : Summary) (new : list EngagementRecord) (g' : Rng),
    simulate_processing vid db g = (Ok s, db ++ new, g')
    /\ success s = true /\ simulated s = true
    /\ records_created s = Z.of_nat (List.length new)
    /\ (10 <= List.length new <= 30)%nat
    /\ Forall simulated_record new.
Proof.
  unfold simulate_processing.
  destruct (randint_range 10 30 g) as (num & -> & Hn); [lia|].
  destruct (simulate_loop_records vid (Z.to_nat num) 0 0 db (fun n => g (S n)))
    as (new & g' & -> & Hlen & Hall).
  eexists _, new, g'. split; [reflexivity|].
  repeat split; try assumption; lia.
Qed.

Lemma simulated_percentage_floor (r : EngagementRecord) :
  simulated_record r -> (10 <= engagement_percentage r)%Q.
Proof.
  intros (Ht & Ha & _ & _ & _ & _ & ->). unfold true_div.
  destruct (total_students r) as [|p|p]; try lia.
  unfold Qle, Qmult, Qdiv, Qinv, inject_Z. cbn. lia.
Qed.

(** ** Invariants of snapshots and records *)

Lemma stored_pct_invariant (r : EngagementRecord) :
  record_pct_invariant (stored r).
Proof.
  unfold record_pct_invariant, pct_invariant, stored. cbn. split; intros H.
  - replace (total_students r >? 0) with true
      by (symmetry; apply Z.gtb_lt; lia). reflexivity.
  - rewrite H. reflexivity.
Qed.

Lemma simulated_pct_invariant (r : EngagementRecord) :
  simulated_record r -> record_pct_invariant r.
Proof.
  intros (Ht & _ & _ & _ & _ & _ & Hp). split; [now intros _ | lia].
Qed.

Lemma saved_table_invariant (db : DB) :
  saved_table db -> Forall record_pct_invariant db.
Proof.
  induction 1 as [|r db _ IH]; [constructor|].
  unfold EngagementRecord_save. apply Forall_app. split; [exact IH|].
  constructor; [apply stored_pct_invariant | constructor].
Qed.

Section Invariants.

Context {P : Platform}.

Lemma emitted_pct_invariant (vid : option Z) (r : EngagementRecord) :
  emitted vid r -> record_pct_invariant r.
Proof. intros [an ->]. apply stored_pct_invariant. Qed.

Lemma emitted_conserved (vid : option Z) (r : EngagementRecord) :
  emitted vid r -> conserved r.
Proof. intros [an ->]. reflexivity. Qed.

Lemma simulated_conserved (r : EngagementRecord) :
  simulated_record r -> conserved r.
Proof. intros (_ & _ & _ & _ & _ & H & _). exact H. Qed.

Lemma process_video_adds (Q : EngagementRecord -> Prop) (path : string)
  (vid : option Z) (si : Z) (db : DB) :
  (forall r, emitted vid r -> Q r) ->
  adds_only Q db (snd (process_video path vid si db)).
Proof.
  intros HQ. destruct (process_video path vid si db) as [res db'] eqn:H.
  destruct (process_video_extends _ _ _ _ _ _ H) as (new & -> & Hall & _).
  exists new. split; [reflexivity|]. revert Hall. apply Forall_impl, HQ.
Qed.

Lemma simulate_processing_adds (Q : EngagementRecord -> Prop)
  (vid : option Z) (db : DB) (g : Rng) :
  (forall r, simulated_record r -> Q r) ->
  adds_only Q db (snd (fst (simulate_processing vid db g))).
Proof.
  intros HQ.
  destruct (simulate_processing_records vid db g)
    as (s & new & g' & -> & _ & _ & _ & _ & Hall).
  exists new. split; [reflexivity|]. revert Hall. apply Forall_impl, HQ.
Qed.

(** C4. In the interval snapshot, in the cumulative snapshot and in every
    record that [process_video] or [simulate_processing] stores, the
    engagement percentage is [attentive / total * 100] when the total is
    positive and 0 when the total is 0. *)
Theorem engagement_percentage_formula :
  (forall an : EngagementAnalyzer,
     let s := get_current_stats an in
     pct_invariant (st_total_students s) (st_attentive_count s)
       (st_engagement_percentage s))
  /\ (forall an : EngagementAnalyzer,
        let s := get_cumulative_stats an in
        pct_invariant (st_total_students s) (st_attentive_count s)
          (st_engagement_percentage s))
  /\ (forall (r : EngagementRecord) (db : DB),
        adds_only record_pct_invariant db (EngagementRecord_save r db))
  /\ (forall (path : string) (vid : option Z) (si : Z) (db : DB),
        adds_only record_pct_invariant db
          (snd (process_video path vid si db)))
  /\ (forall (vid : option Z) (db : DB) (g : Rng),
        adds_only record_pct_invariant db
          (snd (fst (simulate_processing vid db g)))).
Proof.
  assert (Hpct : forall total attentive : Z,
    pct_invariant total attentive
      (if total >? 0 then (true_div attentive total * 100)%Q else 0%Q)).
  { intros total attentive. split; intros H.
    - replace (total >? 0) with true by (symmetry; apply Z.gtb_lt; lia).
      reflexivity.
    - rewrite H. reflexivity. }
  repeat split.
  - apply Hpct.
  - intros H. apply (proj2 (Hpct _ _)). exact H.
  - apply Hpct.
  - intros H. apply (proj2 (Hpct _ _)). exact H.
  - intros r db. exists [stored r]. split; [reflexivity|].
    constructor; [apply stored_pct_invariant | constructor].
  - intros. apply process_video_adds. apply emitted_pct_invariant.
  - intros. apply simulate_processing_adds. apply simulated_pct_invariant.
Qed.

(** C8. The four counts add up to [total_students] in the interval
    snapshot, in the cumulative snapshot, and in every record that
    [process_video] or [simulate_processing] stores. *)
Theorem counts_conservation :
  (forall an : EngagementAnalyzer, stats_conserved (get_current_stats an))
  /\ (forall an : EngagementAnalyzer,
        stats_conserved (get_cumulative_stats an))
  /\ (forall (path : string) (vid : option Z) (si : Z) (db : DB),
        adds_only conserved db (snd (process_video path vid si db)))
  /\ (forall (vid : option Z) (db : DB) (g : Rng),
        adds_only conserved db (snd (fst (simulate_processing vid db g)))).
Proof.
  split; [intros an; reflexivity|].
  split; [intros an; unfold stats_conserved, get_cumulative_stats, py_sum;
          cbn; lia|].
  split.
  - intros. apply process_video_adds. apply emitted_conserved.
  - intros. apply simulate_processing_adds. apply simulated_conserved.
Qed.

End Invariants.

(** C9. [save] stores the record with the percentage recomputed from
    [attentive_count] and [total_students]: the other fields are kept, the
    percentage passed at construction has no influence, and every row of a
    table built by [save] satisfies the percentage invariant. *)
Theorem save_recomputes_percentage :
  (forall (r : EngagementRecord) (db : DB),
     exists r' : EngagementRecord,
       EngagementRecord_save r db = db ++ [r']
       /\ with_percentage r' (engagement_percentage r) = r
       /\ record_pct_invariant r'
       /\ forall pct : Q,
            EngagementRecord_save (with_percentage r pct) db = db ++ [r'])
  /\ (forall db : DB, saved_table db -> Forall record_pct_invariant db).
Proof.
  split.
  - intros r db. exists (stored r). split; [reflexivity|].
    split; [now destruct r|]. split; [apply stored_pct_invariant|].
    intros pct. reflexivity.
  - apply saved_table_invariant.
Qed.

(** C10. Every record of [simulate_processing] has a total between 5 and
    20 and an attentive count between 2 and the total, hence an engagement
    of at least 10; a record of [process_video] can have no attentive face
    and an engagement of 0. *)
Theorem simulated_records_engaged :
  (forall (vid : option Z) (db : DB) (g : Rng),
     exists (s : Summary) (new : list EngagementRecord) (g' : Rng),
       simulate_processing vid db g = (Ok s, db ++ new, g')
       /\ simulated s = true
       /\ records_created s = Z.of_nat (List.length new)
       /\ Forall (fun r => 5 <= total_students r <= 20
                           /\ 2 <= rec_attentive_count r <= total_students r
                           /\ (10 <= engagement_percentage r)%Q) new)
  /\ Exists (fun r => 0 < total_students r /\ rec_attentive_count r = 0
                      /\ (engagement_percentage r == 0)%Q)
       (snd (process_video (P := RefPlatform) "sleepy45.mp4" None 30 [])).
Proof.
  split.
  - intros vid db g.
    destruct (simulate_processing_records vid db g)
      as (s & new & g' & H & _ & Hsim & Hrc & _ & Hall).
    exists s, new, g'. repeat split; try assumption.
    revert Hall. apply Forall_impl. intros r Hr.
    pose proof (simulated_percentage_floor r Hr) as Hp.
    destruct Hr as (Ht & Ha & _). auto.
  - vm_compute. apply Exists_cons_hd. repeat split; discriminate.
Qed.

(** ** The statements on the reference platform *)

Lemma frame_faces_ref (regions : list ndarray) (labels : list Behavior) :
  Forall2 (fun box l =>
             classify_behavior (P := RefPlatform) (Some (ref_crop regions box))
             = Ok l) (ref_boxes regions) labels ->
  frame_faces (P := RefPlatform) true (30, 30) regions labels.
Proof. intros H. exists regions, (ref_boxes regions). now repeat split. Defined.

Lemma attentive_frame_faces :
  frame_faces (P := RefPlatform) true (30, 30) attentive_frame
    [Attentive; Attentive].
Proof. apply frame_faces_ref. repeat constructor. Defined.

Lemma sleepy_frame_faces :
  frame_faces (P := RefPlatform) true (30, 30) sleepy_frame [Sleepy; Sleepy].
Proof. apply frame_faces_ref. repeat constructor. Defined.

Lemma empty_frame_faces :
  frame_faces (P := RefPlatform) true (30, 30) empty_frame [].
Proof. apply frame_faces_ref. constructor. Defined.

Lemma Forall_repeat {A : Type} (Q : A -> Prop) (x : A) (n : nat) :
  Q x -> Forall Q (repeat x n).
Proof. intros H. induction n; cbn [repeat]; constructor; assumption. Defined.

Lemma map_Ok_repeat {A : Type} (x : A) (n : nat) :
  repeat (Ok x) n = map Ok (repeat x n).
Proof. induction n; cbn [repeat map]; [|rewrite IHn]; reflexivity. Defined.

Lemma classify_behavior_first_match_witness :
  classify_behavior (P := RefPlatform) (Some dim_face) = Ok Sleepy
  /\ classify_behavior (P := RefPlatform) (Some turned_face) = Ok Distracted.
Proof.
  split.
  - refine (proj1 (proj2 (proj2 (proj2 (proj2
      (classify_behavior_first_match (P := RefPlatform) dim_face 2 2 []
         _ _ _ _ eq_refl eq_refl eq_refl))))) _ _ _);
      try reflexivity; try discriminate.
    repeat constructor; discriminate.
  - refine (proj2 (proj2 (proj2 (proj2 (proj2
      (classify_behavior_first_match (P := RefPlatform) turned_face 2 4 []
         _ _ _ _ eq_refl eq_refl eq_refl))))) _ _ _);
      try reflexivity; try discriminate.
    repeat constructor; discriminate.
Defined.

Lemma process_video_source_failure_witness :
  (exists s msg,
     process_video (P := RefPlatform) "missing.mp4" (Some 7) 30 [] = (Ok s, [])
     /\ success s = false /\ error s = Some msg /\ msg <> ""%string
     /\ records_created s = 0)
  /\ (exists s msg,
        process_video (P := RefPlatform) "corrupt.mp4" (Some 7) 30 []
        = (Ok s, [])
        /\ success s = false /\ error s = Some msg /\ msg <> ""%string
        /\ records_created s = 0).
Proof.
  split.
  - apply (process_video_source_failure (P := RefPlatform)
             "missing.mp4" (Some 7) 30 []).
    left. reflexivity.
  - apply (process_video_source_failure (P := RefPlatform)
             "corrupt.mp4" (Some 7) 30 []).
    right. reflexivity.
Defined.


Lemma process_video_attentive_run_witness :
  exists (s : Summary) (r1 r2 r3 : EngagementRecord),
    process_video (P := RefPlatform) "attentive90.mp4" (Some 7) 30 []
    = (Ok s, [r1; r2; r3])
    /\ records_created s = 3
    /\ map total_students [r1; r2; r3] = [60; 60; 60].
Proof.
  destruct (process_video_attentive_run (P := RefPlatform)
              "attentive90.mp4" (Some 7) [] (repeat attentive_frame 90)
              eq_refl eq_refl eq_refl)
    as (s & r1 & r2 & r3 & Hrun & _ & Hrc & Hall & _).
  - cbn [ref_videos cv2_VideoCapture RefPlatform reads String.eqb
         Ascii.eqb Bool.eqb].
    apply map_Ok_repeat.
  - apply repeat_length.
  - apply Forall_repeat, attentive_frame_faces.
  - exists s, r1, r2, r3. split; [exact Hrun|]. split; [exact Hrc|].
    inversion Hall as [|? ? [H1 _] Hall2]; subst.
    inversion Hall2 as [|? ? [H2 _] Hall3]; subst.
    inversion Hall3 as [|? ? [H3 _] _]; subst.
    cbn [map]. now rewrite H1, H2, H3.
Defined.

(** C1, as the spec has it, fails: on the 90-frame video of the reference
    platform every frame shows two Attentive faces, and the three records
    do not carry [total_students = 2]. *)
Lemma attentive_run_totals_not_two :
  (exists frames : list (list ndarray),
     reads (ref_videos "attentive90.mp4") = map Ok frames
     /\ List.length frames = 90%nat
     /\ Forall (fun f => frame_faces (P := RefPlatform) true (30, 30) f
                           [Attentive; Attentive]) frames)
  /\ ~ (exists (s : Summary) (new : list EngagementRecord),
          process_video (P := RefPlatform) "attentive90.mp4" None 30 []
          = (Ok s, new)
          /\ List.length new = 3%nat
          /\ Forall (fun r => total_students r = 2
                              /\ rec_attentive_count r = 2
                              /\ (engagement_percentage r == 100)%Q) new).
Proof.
  split.
  - exists (repeat attentive_frame 90). split; [|split].
    + cbn [ref_videos reads String.eqb Ascii.eqb Bool.eqb].
      apply map_Ok_repeat.
    + apply repeat_length.
    + apply Forall_repeat, attentive_frame_faces.
  - intros (s & new & Hrun & _ & Hall). vm_compute in Hrun.
    inversion Hrun; subst; clear Hrun.
    inversion Hall as [|? ? [Htotal _] _]. discriminate.
Qed.

(** * Further properties of the engine *)

Section Frames.

Context {P : Platform}.

Lemma classify_behavior_ok (face_region : option ndarray) :
  exists b : Behavior, classify_behavior face_region = Ok b.
Proof.
  destruct face_region as [a|]; [|now exists Neutral].
  unfold classify_behavior. destruct (size a =? 0); [now exists Neutral|].
  destruct (classify_body a) as [b|e]; cbn [try_except]; eauto.
Qed.

Lemma tally_counts (c : FrameCounts) (b : Behavior) :
  fc_total (tally c b) = fc_total c + 1
  /\ fc_attentive c <= fc_attentive (tally c b)
  /\ fc_sleepy c <= fc_sleepy (tally c b)
  /\ fc_distracted c <= fc_distracted (tally c b)
  /\ fc_neutral c <= fc_neutral (tally c b).
Proof. unfold fc_total. destruct b; cbn; lia. Qed.

Lemma tally_swap (c : FrameCounts) (a b : Behavior) :
  tally (tally c a) b = tally (tally c b) a.
Proof. destruct a, b; reflexivity. Qed.

Lemma classify_faces_counts (gray : Gray) (faces : list Box) :
  forall c c' : FrameCounts,
  classify_faces gray faces c = Ok c' ->
  fc_total c' = fc_total c + Z.of_nat (List.length faces)
  /\ fc_attentive c <= fc_attentive c'
  /\ fc_sleepy c <= fc_sleepy c'
  /\ fc_distracted c <= fc_distracted c'
  /\ fc_neutral c <= fc_neutral c'.
Proof.
  induction faces as [|box faces IH]; intros c c' H; cbn [classify_faces] in H.
  - inversion H; subst. cbn [List.length]. lia.
  - destruct (classify_behavior_ok (Some (crop gray box))) as [b Hb].
    rewrite Hb in H. cbn [bind] in H.
    specialize (IH _ _ H). pose proof (tally_counts c b).
    cbn [List.length]. lia.
Qed.

Lemma process_frame_counts_of (an an' : EngagementAnalyzer)
  (frame : option Frame) (n : Z) (c : FrameCounts) :
  process_frame an frame = Ok (n, c, an') -> counts_of n c.
Proof.
  unfold process_frame. destruct frame as [frame|].
  - destruct (cv2_gray frame) as [gray|e]; cbn [bind]; [|discriminate].
    destruct (if face_cascade an then _ else _) as [faces|e]; cbn [bind];
      [|discriminate].
    destruct (classify_faces gray faces _) as [c0|e] eqn:Hc; cbn [bind];
      [|discriminate].
    intros H; inversion H; subst; clear H.
    apply classify_faces_counts in Hc. unfold fc_total in Hc. cbn in Hc.
    unfold counts_of, fc_total. lia.
  - intros H; inversion H; subst; clear H.
    unfold counts_of, fc_total. cbn. lia.
Qed.

(** X1. Whatever [process_frame] returns, the per-frame dict has no
    negative entry, its entries add up to the number of faces returned, and
    the interval and cumulative counters grow by exactly these entries; the
    frame counter and the face total are left to the caller. *)
Theorem process_frame_tally (an an' : EngagementAnalyzer)
  (frame : option Frame) (n : Z) (c : FrameCounts) :
  process_frame an frame = Ok (n, c, an') ->
  counts_of n c /\ grown_by c an an'
  /\ frame_count an' = frame_count an
  /\ total_faces_detected an' = total_faces_detected an
  /\ face_cascade an' = face_cascade an
  /\ min_face_size an' = min_face_size an.
Proof.
  unfold process_frame. destruct frame as [frame|].
  - destruct (cv2_gray frame) as [gray|e]; cbn [bind]; [|discriminate].
    destruct (if face_cascade an then _ else _) as [faces|e]; cbn [bind];
      [|discriminate].
    destruct (classify_faces gray faces _) as [c0|e] eqn:Hc; cbn [bind];
      [|discriminate].
    intros H; inversion H; subst; clear H.
    apply classify_faces_counts in Hc. unfold fc_total in Hc. cbn in Hc.
    unfold counts_of, grown_by, fc_total. cbn. repeat split; lia.
  - intros H; inversion H; subst; clear H.
    unfold counts_of, grown_by, fc_total. cbn. repeat split; lia.
Qed.

(** X2. The per-frame tally does not depend on the order in which the
    detector lists the faces. *)
Theorem classify_faces_any_order (gray : Gray) (faces faces' : list Box) :
  Permutation faces faces' ->
  forall c : FrameCounts,
  classify_faces gray faces c = classify_faces gray faces' c.
Proof.
  induction 1 as [|x l l' _ IH|x y l|l l' l'' _ IH1 _ IH2]; intros c.
  - reflexivity.
  - cbn [classify_faces].
    destruct (classify_behavior_ok (Some (crop gray x))) as [b ->].
    cbn [bind]. apply IH.
  - cbn [classify_faces].
    destruct (classify_behavior_ok (Some (crop gray x))) as [bx ->].
    destruct (classify_behavior_ok (Some (crop gray y))) as [b_y ->].
    cbn [bind]. now rewrite tally_swap.
  - now rewrite IH1.
Qed.

End Frames.

(** ** Invariants of the processing loop *)

Lemma sumZ_app (l l' : list Z) : sumZ (l ++ l') = sumZ l + sumZ l'.
Proof. unfold sumZ. induction l as [|x l IH]; cbn; [reflexivity|]. lia. Qed.

Lemma div_next (j si : Z) :
  0 < si -> 0 <= j ->
  ((j + 1) mod si = 0 -> (j + 1) / si = j / si + 1
                         /\ j + 1 = (j / si + 1) * si)
  /\ ((j + 1) mod si <> 0 -> (j + 1) / si = j / si).
Proof.
  intros Hsi Hj.
  pose proof (Z.div_mod j si ltac:(lia)) as E.
  pose proof (Z.mod_pos_bound j si Hsi) as B.
  pose proof (Z.div_mod (j + 1) si ltac:(lia)) as E1.
  pose proof (Z.mod_pos_bound (j + 1) si Hsi) as B1.
  set (a := (j + 1) / si) in *. set (b := j / si) in *.
  set (r := j mod si) in *. set (r1 := (j + 1) mod si) in *.
  split; intros H.
  - assert (Hab : a = b + 1) by nia. split; [exact Hab | nia].
  - assert (Hr : r + 1 < si).
    { destruct (Z.eq_dec (r + 1) si) as [Heq|]; [|lia].
      exfalso. apply H. assert (a = b + 1) by nia. nia. }
    nia.
Qed.

Lemma percentage_bounds (a t : Z) :
  0 <= a -> a <= t ->
  let pct := if t >? 0 then (true_div a t * 100)%Q else 0%Q in
  (0 <= pct)%Q /\ (pct <= 100)%Q.
Proof.
  intros Ha Hat pct. subst pct.
  destruct t as [|p|p]; cbn [Z.gtb Z.compare]; try (split; discriminate).
  unfold true_div, Qle, Qmult, Qdiv, Qinv, inject_Z. cbn. split; lia.
Qed.

Section LoopInvariants.

Context {P : Platform}.

Lemma loop_body_advance (vid : option Z) (si : Z) (rd : result Frame)
  (an an' : EngagementAnalyzer) (rc rc' : Z) (db db' : DB) :
  loop_body vid si rd an rc db = Ok (an', rc', db') ->
  si <> 0
  /\ exists (n : Z) (c : FrameCounts),
       counts_of n c /\ (an', rc', db') = advance vid si n c (an, rc, db).
Proof.
  unfold loop_body. destruct rd as [frame|e]; cbn [bind]; [|discriminate].
  destruct (process_frame _ _) as [[[n c] an1]|e] eqn:Hp; cbn [bind];
    [|discriminate].
  pose proof (process_frame_counts_of _ _ _ _ _ Hp) as Hc.
  assert (Han1 : an1 = add_counts (incr_frame_count an) c).
  { unfold process_frame in Hp.
    destruct (cv2_gray frame); cbn [bind] in Hp; [|discriminate].
    destruct (if face_cascade _ then _ else _); cbn [bind] in Hp;
      [|discriminate].
    destruct (classify_faces _ _ _); cbn [bind] in Hp; [|discriminate].
    now inversion Hp. }
  subst an1. unfold py_mod. destruct (si =? 0) eqn:Hsi; cbn [bind];
    [discriminate|].
  apply Z.eqb_neq in Hsi. intros H. split; [exact Hsi|].
  exists n, c. split; [exact Hc|]. unfold advance.
  destruct (_ mod si =? 0); now inversion H.
Qed.

(** An invariant of [advance], indexed by the number of frames read, holds
    when the loop leaves, at the point where it leaves. *)
Lemma video_loop_invariant (vid : option Z) (si : Z)
  (I : nat -> EngagementAnalyzer * Z * DB -> Prop) :
  (forall j st n c,
     si <> 0 -> counts_of n c -> I j st -> I (S j) (advance vid si n c st)) ->
  forall (rds : list (result Frame)) (j : nat) (an : EngagementAnalyzer)
         (rc : Z) (db : DB) (x : LoopExit) (db' : DB),
  I j (an, rc, db) ->
  video_loop vid si rds an rc db = (x, db') ->
  match x with
  | Break an' rc' => I (j + List.length rds)%nat (an', rc', db')
  | Except _ rc' =>
      exists (j' : nat) (an' : EngagementAnalyzer),
        (j <= j' < j + List.length rds)%nat /\ I j' (an', rc', db')
  end.
Proof.
  intros Hstep. induction rds as [|rd rds IH]; intros j an rc db x db' HI H;
    cbn [video_loop] in H.
  - inversion H; subst. cbn [List.length]. now rewrite Nat.add_0_r.
  - destruct (loop_body vid si rd an rc db) as [[[an1 rc1] db1]|e] eqn:Hb.
    + destruct (loop_body_advance _ _ _ _ _ _ _ _ _ Hb)
        as (Hsi & n & c & Hc & Hadv).
      pose proof (Hstep j _ n c Hsi Hc HI) as HI1. rewrite <- Hadv in HI1.
      specialize (IH (S j) _ _ _ _ _ HI1 H). cbn [List.length].
      destruct x as [an' rc'|e rc'].
      * now rewrite Nat.add_succ_r.
      * destruct IH as (j' & an' & Hj & HI'). exists j', an'.
        split; [lia | exact HI'].
    + inversion H; subst. exists j, an. cbn [List.length].
      split; [lia | exact HI].
Qed.

Lemma account_inv_advance (vid : option Z) (si : Z) (db0 : DB)
  (st : EngagementAnalyzer * Z * DB) (n : Z) (c : FrameCounts) :
  si <> 0 -> counts_of n c ->
  account_inv vid si db0 st -> account_inv vid si db0 (advance vid si n c st).
Proof.
  intros Hsi (Ha & Hs & Hd & Hn & Hsum). destruct st as [[an rc] db].
  intros (new & -> & -> & (Pa & Ps & Pd & Pn) & Hz & Sa & Ss & Sd & Sn
          & Hfaces & Hall).
  unfold fc_total in Hsum. unfold cum_total in Hfaces.
  unfold advance, account_inv.
  destruct (_ mod si =? 0) eqn:Hm.
  - eexists (new ++ [_]). unfold EngagementRecord_save.
    rewrite <- app_assoc. split; [reflexivity|].
    rewrite length_app, !map_app, !sumZ_app, Forall_app.
    unfold cum_total. cbn. repeat split; try lia.
    + exact Hall.
    + constructor; [|constructor].
      pose proof (percentage_bounds
                    (attentive_count an + fc_attentive c)
                    (attentive_count an + fc_attentive c
                     + (sleepy_count an + fc_sleepy c)
                     + (distracted_count an + fc_distracted c)
                     + (neutral_count an + fc_neutral c))) as Hp.
      cbn zeta in Hp. unfold record_ok, conserved. cbn.
      repeat split; try lia; apply Hp; lia.
  - apply Z.eqb_neq in Hm. exists new. unfold cum_total. cbn in Hm |- *.
    repeat split; try lia; try assumption; intros Hm'; contradiction.
Qed.

Lemma frames_inv_advance (vid : option Z) (si : Z) (db0 : DB) (j : nat)
  (st : EngagementAnalyzer * Z * DB) (n : Z) (c : FrameCounts) :
  0 < si ->
  frames_inv si db0 j st -> frames_inv si db0 (S j) (advance vid si n c st).
Proof.
  intros Hsi. destruct st as [[an rc] db].
  intros (new & -> & -> & Hfc & Hlen & Hmarks).
  destruct (div_next (Z.of_nat j) si Hsi (Nat2Z.is_nonneg j)) as [Hyes Hno].
  unfold advance, frames_inv. cbn [frame_count incr_frame_count add_counts
    add_faces_detected]. rewrite Hfc.
  replace (Z.of_nat (S j)) with (Z.of_nat j + 1) by lia.
  destruct (_ mod si =? 0) eqn:Hm.
  - apply Z.eqb_eq in Hm. destruct (Hyes Hm) as [Hdiv Hmul].
    eexists (new ++ [_]). unfold EngagementRecord_save.
    rewrite <- app_assoc. split; [reflexivity|].
    rewrite length_app, map_app. cbn [List.length map].
    repeat split; try lia.
    + cbn. lia.
    + unfold interval_marks in *.
      rewrite Nat.add_1_r, seq_S, map_app, Hmarks.
      cbn [map stored record_of_stats frame_number]. do 2 f_equal. lia.
  - apply Z.eqb_neq in Hm. exists new. rewrite (Hno Hm).
    repeat split; try assumption. cbn. lia.
Qed.

End LoopInvariants.

(** ** Runs of [process_video] *)

Section RunProperties.

Context {P : Platform}.

Lemma account_inv_init (vid : option Z) (si : Z) (db : DB) :
  account_inv vid si db (EngagementAnalyzer_init si (30, 30), 0, db).
Proof.
  exists []. rewrite app_nil_r. unfold cum_total. cbn.
  repeat split; try lia. constructor.
Qed.

Lemma frames_inv_init (si : Z) (db : DB) :
  frames_inv si db 0 (EngagementAnalyzer_init si (30, 30), 0, db).
Proof. exists []. rewrite app_nil_r. cbn. repeat split. Qed.

Lemma snapshot_record_ok (vid : option Z) (an : EngagementAnalyzer) (fn : Z) :
  0 <= attentive_count an -> 0 <= sleepy_count an ->
  0 <= distracted_count an -> 0 <= neutral_count an ->
  record_ok vid (stored (record_of_stats vid (get_current_stats an) fn)).
Proof.
  intros Ha Hs Hd Hn.
  pose proof (percentage_bounds (attentive_count an)
                (attentive_count an + sleepy_count an + distracted_count an
                 + neutral_count an)) as Hp.
  cbn zeta in Hp. unfold record_ok, conserved. cbn.
  repeat split; try lia; apply Hp; lia.
Qed.

(** A summary with [success = True] comes from a loop that reached the end
    of the stream and a final step that did not raise. *)
Lemma process_video_success (path : string) (vid : option Z) (si : Z)
  (db db' : DB) (s : Summary) :
  process_video path vid si db = (Ok s, db') -> success s = true ->
  exists (an : EngagementAnalyzer) (rc : Z) (db1 : DB),
    video_loop vid si (reads (cv2_VideoCapture path))
      (EngagementAnalyzer_init si (30, 30)) 0 db = (Break an rc, db1)
    /\ final_flush vid si an rc db1 = Ok (records_created s, db')
    /\ total_frames s = Some (frame_count an)
    /\ sum_total_faces_detected s = Some (total_faces_detected an)
    /\ final_stats s = Some (get_cumulative_stats an)
    /\ si <> 0.
Proof.
  unfold process_video. intros H Hs.
  destruct (negb CV2_AVAILABLE);
    [inversion H; subst; discriminate|].
  destruct (negb (os_path_exists path));
    [inversion H; subst; discriminate|].
  destruct (negb (isOpened _)); [inversion H; subst; discriminate|].
  destruct (video_loop _ _ _ _ _ _) as [[an rc|e rc] db1];
    [|inversion H; subst; discriminate].
  destruct (final_flush vid si an rc db1) as [[rc' db2]|e] eqn:Hf;
    [|discriminate].
  inversion H; subst; clear H. exists an, rc, db1. cbn.
  split; [reflexivity|]. split; [exact Hf|].
  repeat (split; [reflexivity|]).
  intros ->. unfold final_flush, py_mod in Hf. cbn in Hf. discriminate.
Qed.

(** X3. Every record [process_video] stores, in a run that succeeds or
    not, carries the upload id it was given, has no negative count, has
    its four counts adding up to the total, and has a percentage between
    0 and 100. *)
Theorem process_video_records_ok (path : string) (vid : option Z) (si : Z)
  (db : DB) :
  adds_only (record_ok vid) db (snd (process_video path vid si db)).
Proof.
  assert (Hnil : adds_only (record_ok vid) db db).
  { exists []. rewrite app_nil_r. split; [reflexivity | constructor]. }
  unfold process_video.
  destruct (negb CV2_AVAILABLE); [exact Hnil|].
  destruct (negb (os_path_exists path)); [exact Hnil|].
  destruct (negb (isOpened _)); [exact Hnil|].
  destruct (video_loop _ _ _ _ _ _) as [x db1] eqn:Hl.
  pose proof (video_loop_invariant vid si (fun _ => account_inv vid si db)
                (fun j st n c => account_inv_advance vid si db st n c)
                _ 0%nat _ _ _ _ _ (account_inv_init vid si db) Hl) as HI.
  destruct x as [an rc|e rc].
  - destruct HI as (new & -> & _ & (Pa & Ps & Pd & Pn) & _ & _ & _ & _ & _
                    & _ & Hall).
    assert (Hloop : adds_only (record_ok vid) db (db ++ new))
      by (now exists new).
    unfold final_flush. destruct (py_mod _ _) as [m|e]; cbn [bind snd];
      [|exact Hloop].
    destruct (negb (m =? 0)); [|exact Hloop].
    destruct (_ >? 0); [|exact Hloop]. cbn [snd].
    exists (new ++ [stored (record_of_stats vid (get_current_stats an)
                              (frame_count an))]).
    unfold EngagementRecord_save. rewrite app_assoc.
    split; [reflexivity|]. apply Forall_app. split; [exact Hall|].
    constructor; [|constructor]. now apply snapshot_record_ok.
  - destruct HI as (j' & an' & _ & new & -> & _ & _ & _ & _ & _ & _ & _ & _
                    & Hall).
    now exists new.
Qed.

(** X4. In a run that succeeds no detected face is lost or counted
    twice: over the records the run stored, the totals and each of the four
    counts add up to the final cumulative statistics, and the total is the
    number of faces detected. *)
Theorem process_video_accounts (path : string) (vid : option Z) (si : Z)
  (db db' : DB) (s : Summary) :
  process_video path vid si db = (Ok s, db') -> success s = true ->
  exists (new : list EngagementRecord) (stats : Stats),
    db' = db ++ new /\ final_stats s = Some stats
    /\ sum_total_faces_detected s = Some (st_total_students stats)
    /\ sumZ (map total_students new) = st_total_students stats
    /\ sumZ (map rec_attentive_count new) = st_attentive_count stats
    /\ sumZ (map rec_sleepy_count new) = st_sleepy_count stats
    /\ sumZ (map rec_distracted_count new) = st_distracted_count stats
    /\ sumZ (map rec_neutral_count new) = st_neutral_count stats.
Proof.
  intros H Hs.
  destruct (process_video_success _ _ _ _ _ _ H Hs)
    as (an & rc & db1 & Hl & Hf & _ & Hfaces & Hstats & Hsi).
  pose proof (video_loop_invariant vid si (fun _ => account_inv vid si db)
                (fun j st n c => account_inv_advance vid si db st n c)
                _ 0%nat _ _ _ _ _ (account_inv_init vid si db) Hl) as HI.
  destruct HI as (new & -> & _ & (Pa & Ps & Pd & Pn) & Hz & Sa & Ss & Sd & Sn
                  & Htfd & Hall).
  assert (Htot : sumZ (map total_students new)
                 = sumZ (map rec_attentive_count new)
                   + sumZ (map rec_sleepy_count new)
                   + sumZ (map rec_distracted_count new)
                   + sumZ (map rec_neutral_count new)).
  { clear -Hall. induction Hall as [|r l Hr _ IH]; [reflexivity|].
    destruct Hr as (_ & _ & _ & _ & _ & Hc & _). unfold conserved in Hc.
    cbn [map sumZ fold_right] in *. unfold sumZ in IH. lia. }
  rewrite Hstats, Hfaces, Htfd. unfold cum_total in *.
  assert (Hcase :
    (db' = db ++ new
     /\ attentive_count an = 0 /\ sleepy_count an = 0
     /\ distracted_count an = 0 /\ neutral_count an = 0)
    \/ db' = db ++ new ++ [stored (record_of_stats vid (get_current_stats an)
                                     (frame_count an))]).
  { unfold final_flush, py_mod in Hf. apply Z.eqb_neq in Hsi.
    rewrite Hsi in Hf. cbn [bind] in Hf.
    destruct (frame_count an mod si =? 0) eqn:Hm; cbn [negb] in Hf.
    - apply Z.eqb_eq in Hm. inversion Hf; subst. left. split; [reflexivity|].
      now apply Hz.
    - destruct (st_total_students (get_current_stats an) >? 0) eqn:Ht.
      + inversion Hf; subst. right. unfold EngagementRecord_save.
        now rewrite app_assoc.
      + inversion Hf; subst. left. split; [reflexivity|].
        cbn in Ht. destruct (Z.gtb_spec
          (attentive_count an + sleepy_count an + distracted_count an
           + neutral_count an) 0); [discriminate | lia]. }
  destruct Hcase as [(-> & Za & Zs & Zd & Zn) | ->].
  - exists new, (get_cumulative_stats an). unfold get_cumulative_stats, py_sum.
    cbn. repeat split; lia.
  - eexists _, (get_cumulative_stats an). split; [reflexivity|].
    unfold get_cumulative_stats, py_sum. rewrite !map_app, !sumZ_app.
    cbn. repeat split; lia.
Qed.

(** X5. A run that succeeds with a positive interval reports as many
    frames as the capture delivered; the loop stores one record at each of
    the frame numbers [si, 2 si, ...] up to that count, and the end of the
    stream adds at most one record, stamped with the frame count, only when
    the count is not a multiple of the interval. *)
Theorem process_video_marks (path : string) (vid : option Z) (si : Z)
  (db db' : DB) (s : Summary) :
  0 < si ->
  process_video path vid si db = (Ok s, db') -> success s = true ->
  let k := Z.of_nat (List.length (reads (cv2_VideoCapture path))) in
  total_frames s = Some k
  /\ exists marks tail : list EngagementRecord,
       db' = db ++ marks ++ tail
       /\ Z.of_nat (List.length marks) = k / si
       /\ map frame_number marks = interval_marks si (List.length marks)
       /\ records_created s
          = Z.of_nat (List.length marks) + Z.of_nat (List.length tail)
       /\ (tail = []
           \/ exists r, tail = [r] /\ frame_number r = k /\ k mod si <> 0).
Proof.
  intros Hpos H Hs k.
  destruct (process_video_success _ _ _ _ _ _ H Hs)
    as (an & rc & db1 & Hl & Hf & Hframes & _ & _ & Hsi).
  pose proof (video_loop_invariant vid si (frames_inv si db)
                (fun j st n c _ _ => frames_inv_advance vid si db j st n c Hpos)
                _ 0%nat _ _ _ _ _ (frames_inv_init si db) Hl) as HI.
  cbn [Nat.add] in HI.
  destruct HI as (marks & -> & -> & Hfc & Hlen & Hmarks).
  fold k in Hfc, Hlen. rewrite Hframes, Hfc. split; [reflexivity|].
  exists marks. unfold final_flush, py_mod in Hf. apply Z.eqb_neq in Hsi.
  rewrite Hsi in Hf. cbn [bind] in Hf. rewrite Hfc in Hf.
  destruct (k mod si =? 0) eqn:Hm; cbn [negb] in Hf.
  - inversion Hf as [[Hrc Hdb]]. exists []. rewrite app_nil_r.
    cbn [List.length Z.of_nat].
    split; [reflexivity|]. split; [exact Hlen|]. split; [exact Hmarks|].
    split; [lia | now left].
  - destruct (_ >? 0).
    + inversion Hf as [[Hrc Hdb]].
      exists [stored (record_of_stats vid (get_current_stats an) k)].
      unfold EngagementRecord_save. rewrite <- app_assoc.
      cbn [List.length Z.of_nat Pos.of_succ_nat].
      split; [reflexivity|]. split; [exact Hlen|]. split; [exact Hmarks|].
      split; [lia|]. right. eexists. split; [reflexivity|].
      apply Z.eqb_neq in Hm. split; [reflexivity | exact Hm].
    + inversion Hf as [[Hrc Hdb]]. exists []. rewrite app_nil_r.
      cbn [List.length Z.of_nat].
      split; [reflexivity|]. split; [exact Hlen|]. split; [exact Hmarks|].
      split; [lia | now left].
Qed.

(** X7. With an interval of zero on a capture that opens: when the
    stream is empty the modulo after the loop raises out of
    [process_video]; when the first frame is read and processed the modulo
    in the loop raises, and the run returns a failed summary with no
    record. The table is unchanged in both cases. *)
Theorem process_video_zero_interval (path : string) (vid : option Z) (db : DB) :
  CV2_AVAILABLE = true -> os_path_exists path = true ->
  isOpened (cv2_VideoCapture path) = true ->
  (reads (cv2_VideoCapture path) = [] ->
   process_video path vid 0 db = (Raise ZeroDivisionError, db))
  /\ (forall (frame : Frame) (rest : list (result Frame)) (n : Z)
             (c : FrameCounts) (an : EngagementAnalyzer),
      reads (cv2_VideoCapture path) = Ok frame :: rest ->
      process_frame (incr_frame_count (EngagementAnalyzer_init 0 (30, 30)))
        (Some frame) = Ok (n, c, an) ->
      process_video path vid 0 db
      = (Ok (failed (str ZeroDivisionError) 0), db)).
Proof.
  intros Hcv Hex Hop. split.
  - intros Hrd. rewrite (process_video_opened path vid 0 db Hcv Hex Hop), Hrd.
    reflexivity.
  - intros frame rest n c an Hrd Hp.
    rewrite (process_video_opened path vid 0 db Hcv Hex Hop), Hrd.
    cbn [video_loop]. unfold loop_body. cbn [bind]. rewrite Hp. reflexivity.
Qed.

End RunProperties.

(** ** A run without a face detector *)

Lemma advance_n_invariant (vid : option Z) (si n : Z) (c : FrameCounts)
  (I : nat -> EngagementAnalyzer * Z * DB -> Prop) :
  (forall j st, I j st -> I (S j) (advance vid si n c st)) ->
  forall (k j : nat) (st : EngagementAnalyzer * Z * DB),
  I j st -> I (j + k)%nat (advance_n vid si n c k st).
Proof.
  intros Hstep. induction k as [|k IH]; intros j st HI; cbn [advance_n].
  - now rewrite Nat.add_0_r.
  - rewrite Nat.add_succ_r. apply (IH (S j)). now apply Hstep.
Qed.

Lemma idle_inv_advance (vid : option Z) (si : Z) (db0 : DB)
  (st : EngagementAnalyzer * Z * DB) :
  idle_inv db0 st -> idle_inv db0 (advance vid si 0 (count_labels []) st).
Proof.
  destruct st as [[an rc] db].
  intros (Ha & Hs & Hd & Hn & Hc & Hf & new & -> & Hall).
  unfold cum_total in Hc. unfold advance, idle_inv, cum_total.
  destruct (_ mod si =? 0).
  - cbn. repeat split; try lia.
    eexists (new ++ [_]). unfold EngagementRecord_save.
    rewrite <- app_assoc. split; [reflexivity|].
    apply Forall_app. split; [exact Hall|]. constructor; [|constructor].
    unfold blank_record. cbn. rewrite Ha, Hs, Hd, Hn. cbn.
    repeat split; reflexivity.
  - cbn. repeat split; try lia. now exists new.
Qed.

Section Degraded.

Context {P : Platform}.

(** X8. When OpenCV is there but the Haar cascade file is not, a run over
    [k] frames that all convert to grayscale succeeds with a positive
    interval [si]: it reports [k] frames and no face, and stores exactly
    [k / si] records, all of them blank (every count 0, percentage 0). *)
Theorem process_video_without_cascade (path : string) (vid : option Z)
  (si : Z) (db : DB) (frames : list Frame) :
  CV2_AVAILABLE = true -> cascade_exists = false ->
  os_path_exists path = true -> isOpened (cv2_VideoCapture path) = true ->
  reads (cv2_VideoCapture path) = map Ok frames ->
  Forall (fun f => exists gray, cv2_gray f = Ok gray) frames ->
  0 < si ->
  let k := Z.of_nat (List.length frames) in
  exists (s : Summary) (new : list EngagementRecord),
    process_video path vid si db = (Ok s, db ++ new)
    /\ success s = true /\ total_frames s = Some k
    /\ sum_total_faces_detected s = Some 0
    /\ records_created s = k / si
    /\ Z.of_nat (List.length new) = k / si
    /\ Forall blank_record new.
Proof.
  intros Hcv Hca Hex Hop Hrd Hgray Hsi k.
  assert (Hfaces : Forall (fun f =>
            frame_faces (face_cascade (EngagementAnalyzer_init si (30, 30)))
              (min_face_size (EngagementAnalyzer_init si (30, 30))) f [])
            frames).
  { revert Hgray. apply Forall_impl. intros f [gray Hg].
    exists gray, []. cbn. rewrite Hcv, Hca. cbn.
    split; [exact Hg|]. split; [reflexivity | constructor]. }
  rewrite (process_video_opened path vid si db Hcv Hex Hop), Hrd.
  rewrite <- (app_nil_r (map Ok frames)).
  rewrite (video_loop_block vid si [] frames ltac:(lia) _ _ _ _ Hfaces).
  pose proof (advance_n_invariant vid si 0 (count_labels [])
                (fun j st => frames_inv si db j st /\ idle_inv db st)) as HI.
  specialize (HI (fun j st H =>
                    conj (frames_inv_advance vid si db j st 0 _ Hsi (proj1 H))
                         (idle_inv_advance vid si db st (proj2 H)))
                 (List.length frames) 0%nat
                 (EngagementAnalyzer_init si (30, 30), 0, db)).
  cbn [List.length Z.of_nat Nat.add] in HI |- *.
  destruct (advance_n vid si 0 (count_labels []) (List.length frames) _)
    as [[an rc] db1].
  destruct HI as [Hfr Hid].
  { split; [apply frames_inv_init|].
    unfold idle_inv, cum_total. cbn. repeat split.
    exists []. rewrite app_nil_r. split; [reflexivity | constructor]. }
  destruct Hfr as (new & -> & -> & Hfc & Hlen & _).
  destruct Hid as (Ha & Hs & Hd & Hn & _ & Hf & new' & Hnew & Hall).
  apply app_inv_head in Hnew. subst new'.
  cbn [video_loop]. unfold final_flush, py_mod.
  replace (si =? 0) with false by (symmetry; apply Z.eqb_neq; lia).
  cbn [bind]. unfold get_current_stats at 1. cbn [st_total_students].
  rewrite Ha, Hs, Hd, Hn. cbn [Z.add Z.gtb Z.compare].
  fold k in Hfc, Hlen.
  destruct (negb (frame_count an mod si =? 0));
    exists (mk_summary true None (Some (frame_count an))
              (Some (total_faces_detected an)) (Z.of_nat (List.length new))
              (Some (get_cumulative_stats an)) false), new;
    cbn; rewrite Hfc, Hf; repeat split; assumption.
Qed.

End Degraded.

(** ** The end of the stream *)

Lemma quiet_inv_advance (vid : option Z) (si : Z)
  (st : EngagementAnalyzer * Z * DB) :
  quiet_inv st -> quiet_inv (advance vid si 0 (count_labels []) st).
Proof.
  destruct st as [[an rc] db]. intros (Ha & Hs & Hd & Hn).
  unfold advance, quiet_inv. destruct (_ mod si =? 0); cbn; lia.
Qed.

Lemma final_flush_ok (vid : option Z) (si : Z) (an : EngagementAnalyzer)
  (rc : Z) (db : DB) :
  si <> 0 -> exists r, final_flush vid si an rc db = Ok r.
Proof.
  intros Hsi. unfold final_flush, py_mod. apply Z.eqb_neq in Hsi.
  rewrite Hsi. cbn [bind].
  destruct (negb _); [destruct (_ >? 0)|]; eexists; reflexivity.
Qed.

Lemma final_record_stored (vid : option Z) (an : EngagementAnalyzer) :
  final_record vid an
    (stored (record_of_stats vid (get_current_stats an) (frame_count an))).
Proof.
  unfold final_record. cbn. repeat split. intros Hpos.
  destruct (Z.gtb_spec
              (attentive_count an + sleepy_count an + distracted_count an
               + neutral_count an) 0); [reflexivity | lia].
Qed.

Section EndOfStream.

Context {P : Platform}.

(** The decision at end of stream, read on the four counters. *)
Lemma final_flush_on_counters (vid : option Z) (si : Z)
  (an : EngagementAnalyzer) (rc : Z) (db : DB) :
  si <> 0 ->
  let tally :=
    attentive_count an + sleepy_count an + distracted_count an
    + neutral_count an in
  let pending := frame_count an mod si <> 0 /\ 0 < tally in
  (pending ->
   final_flush vid si an rc db
   = Ok (rc + 1,
         db ++ [stored (record_of_stats vid (get_current_stats an)
                          (frame_count an))]))
  /\ (~ pending -> final_flush vid si an rc db = Ok (rc, db)).
Proof.
  intros Hsi tally pending.
  destruct (final_flush_cases vid si an rc db Hsi) as [Hyes Hno].
  cbn in Hyes, Hno. subst pending tally. split.
  - intros [Hm Ht]. apply Hyes. split; [exact Hm | lia].
  - intros Hn. apply Hno. intros [Hm Ht]. apply Hn. split; [exact Hm | lia].
Qed.

(** Where a run that began on the table [db] stands when the stream ends
    after the reads [rds]. *)
Lemma run_state_at_break (vid : option Z) (si : Z) (rds : list (result Frame))
  (db db1 : DB) (an : EngagementAnalyzer) (rc : Z) :
  0 < si ->
  video_loop vid si rds (EngagementAnalyzer_init si (30, 30)) 0 db
  = (Break an rc, db1) ->
  frames_inv si db (List.length rds) (an, rc, db1)
  /\ account_inv vid si db (an, rc, db1)
  /\ face_cascade an = CV2_AVAILABLE && cascade_exists
  /\ min_face_size an = (30, 30).
Proof.
  intros Hsi Hl.
  pose proof (video_loop_invariant vid si
    (fun j st => frames_inv si db j st /\ account_inv vid si db st
                 /\ face_cascade (fst (fst st)) = CV2_AVAILABLE && cascade_exists
                 /\ min_face_size (fst (fst st)) = (30, 30))) as HI.
  specialize (HI (fun j st n c Hne Hc H =>
    conj (frames_inv_advance vid si db j st n c Hsi (proj1 H))
      (conj (account_inv_advance vid si db st n c Hne Hc (proj1 (proj2 H)))
         (match st return
            face_cascade (fst (fst st)) = CV2_AVAILABLE && cascade_exists
            /\ min_face_size (fst (fst st)) = (30, 30) ->
            face_cascade (fst (fst (advance vid si n c st)))
            = CV2_AVAILABLE && cascade_exists
            /\ min_face_size (fst (fst (advance vid si n c st))) = (30, 30)
          with
          | (a, r, d) => fun H' =>
              let E := advance_config vid si n c a r d in
              conj (eq_trans (proj1 E) (proj1 H'))
                   (eq_trans (proj2 E) (proj2 H'))
          end (proj2 (proj2 H)))))
    rds 0%nat _ _ _ _ _
    (conj (frames_inv_init si db)
       (conj (account_inv_init vid si db) (conj eq_refl eq_refl))) Hl).
  exact HI.
Qed.

(** C5. At end of stream, with the table [db1] and the count [rc] the
    loop left, [process_video] writes one more record exactly when the
    frame counter is not a multiple of the interval and the four interval
    counters add up to more than zero, and none otherwise; the record
    holds these counters, their sum, the frame counter and the percentage
    of the attentive faces.
    On 45 frames of which the last 15 show no face, with an interval of
    30, the run writes one record, at frame 30, and the end of the stream
    adds nothing, whatever the first 30 frames show.
    On a stream shorter than the interval in which a face was detected,
    the end of the stream writes the only record of the run. *)
Theorem process_video_final_flush (path : string) (vid : option Z) (si : Z)
  (db : DB) (an : EngagementAnalyzer) (rc : Z) (db1 : DB) :
  CV2_AVAILABLE = true -> os_path_exists path = true ->
  isOpened (cv2_VideoCapture path) = true ->
  si <> 0 ->
  video_loop vid si (reads (cv2_VideoCapture path))
    (EngagementAnalyzer_init si (30, 30)) 0 db = (Break an rc, db1) ->
  let tally :=
    attentive_count an + sleepy_count an + distracted_count an
    + neutral_count an in
  let pending := frame_count an mod si <> 0 /\ 0 < tally in
  (exists (s : Summary) (db' : DB),
     process_video path vid si db = (Ok s, db') /\ success s = true
     /\ (pending ->
         exists r : EngagementRecord,
           db' = db1 ++ [r]
           /\ r = stored (record_of_stats vid (get_current_stats an)
                            (frame_count an))
           /\ final_record vid an r
           /\ records_created s = rc + 1)
     /\ (~ pending -> db' = db1 /\ records_created s = rc))
  /\ (forall (pre : list (result Frame)) (second : list Frame),
      si = 30 ->
      reads (cv2_VideoCapture path) = pre ++ map Ok second ->
      List.length pre = 30%nat -> List.length second = 15%nat ->
      Forall (fun f => frame_faces (CV2_AVAILABLE && cascade_exists) (30, 30) f
                         []) second ->
      exists (s : Summary) (r : EngagementRecord),
        process_video path vid si db = (Ok s, db ++ [r])
        /\ db1 = db ++ [r] /\ records_created s = 1 /\ rc = 1
        /\ frame_number r = 30 /\ ~ pending)
  /\ (0 < si ->
      Z.of_nat (List.length (reads (cv2_VideoCapture path))) < si ->
      0 < total_faces_detected an ->
      exists (s : Summary) (r : EngagementRecord),
        process_video path vid si db = (Ok s, db ++ [r])
        /\ db1 = db /\ rc = 0 /\ records_created s = 1
        /\ pending /\ final_record vid an r
        /\ total_students r = total_faces_detected an
        /\ frame_number r
           = Z.of_nat (List.length (reads (cv2_VideoCapture path)))).
Proof.
  intros Hcv Hex Hop Hsi Hloop tally pending.
  pose proof (final_flush_on_counters vid si an rc db1 Hsi) as [Hyes Hno].
  fold tally in Hyes, Hno. fold pending in Hyes, Hno.
  pose proof (process_video_opened path vid si db Hcv Hex Hop) as Hpv.
  rewrite Hloop in Hpv.
  assert (HA : exists (s : Summary) (db' : DB),
     process_video path vid si db = (Ok s, db') /\ success s = true
     /\ (pending ->
         exists r : EngagementRecord,
           db' = db1 ++ [r]
           /\ r = stored (record_of_stats vid (get_current_stats an)
                            (frame_count an))
           /\ final_record vid an r
           /\ records_created s = rc + 1)
     /\ (~ pending -> db' = db1 /\ records_created s = rc)).
  { destruct (final_flush_ok vid si an rc db1 Hsi) as [[rc' db'] Hf].
    rewrite Hf in Hpv, Hyes, Hno.
    exists (mk_summary true None (Some (frame_count an))
              (Some (total_faces_detected an)) rc'
              (Some (get_cumulative_stats an)) false), db'.
    split; [exact Hpv|]. split; [reflexivity|]. cbn [records_created]. split.
    - intros Hp. specialize (Hyes Hp). inversion Hyes; subst.
      eexists. split; [reflexivity|]. split; [reflexivity|].
      split; [apply final_record_stored | reflexivity].
    - intros Hp. specialize (Hno Hp). now inversion Hno. }
  split; [exact HA|]. split.
  - intros pre second -> Hrd Hl1 Hl2 Hquiet.
    rewrite Hrd, video_loop_app in Hloop.
    destruct (video_loop vid 30 pre _ 0 db) as [[an30 rc30|e rc'] db30] eqn:Hpre;
      [|discriminate].
    destruct (run_state_at_break vid 30 pre db db30 an30 rc30 ltac:(lia) Hpre)
      as (Hfr & Hacc & Hfc & Hms).
    rewrite Hl1 in Hfr.
    assert (Hq : quiet_inv (an30, rc30, db30)).
    { destruct Hfr as (new & _ & _ & Hcount & _).
      destruct Hacc as (new' & _ & _ & _ & Hz & _).
      unfold quiet_inv. apply Hz. rewrite Hcount. reflexivity. }
    rewrite <- (app_nil_r (map Ok second)) in Hloop.
    rewrite (video_loop_block vid 30 [] second ltac:(lia)) in Hloop
      by (rewrite Hfc, Hms; exact Hquiet).
    pose proof (advance_n_invariant vid 30 0 (count_labels [])
                  (fun j st => frames_inv 30 db j st /\ quiet_inv st)
                  (fun j st H =>
                     conj (frames_inv_advance vid 30 db j st 0 _
                             ltac:(lia) (proj1 H))
                          (quiet_inv_advance vid 30 st (proj2 H)))
                  (List.length second) 30%nat _ (conj Hfr Hq)) as HI.
    cbn [List.length Z.of_nat] in Hloop.
    destruct (advance_n vid 30 0 (count_labels []) (List.length second) _)
      as [[an' rc'] db'].
    cbn [video_loop] in Hloop. inversion Hloop; subst an' rc' db'; clear Hloop.
    rewrite Hl2 in HI. destruct HI as [Hfr45 (Za & Zs & Zd & Zn)].
    destruct Hfr45 as (new & -> & -> & Hcount & Hlen & Hmarks).
    assert (Hnp : ~ pending).
    { subst pending tally. rewrite Za, Zs, Zd, Zn. intros [_ H]. lia. }
    assert (Hone : List.length new = 1%nat).
    { change (Z.of_nat (30 + 15) / 30) with 1 in Hlen. lia. }
    destruct new as [|r [|r2 new]]; try discriminate Hone.
    destruct HA as (s & db' & Hrun & _ & _ & Hrest).
    destruct (Hrest Hnp) as [-> Hrc].
    exists s, r. split; [exact Hrun|]. split; [reflexivity|].
    split; [exact Hrc|]. split; [reflexivity|].
    split; [|exact Hnp]. cbn in Hmarks. now inversion Hmarks.
  - intros Hpos Hshort Hfaces.
    destruct (run_state_at_break vid si _ db db1 an rc Hpos Hloop)
      as (Hfr & Hacc & _ & _).
    destruct Hfr as (new & Hdb & Hrc & Hcount & Hlen & _).
    rewrite Z.div_small in Hlen by lia.
    destruct new as [|r0 new]; [|discriminate Hlen].
    rewrite app_nil_r in Hdb. cbn in Hrc. subst db1 rc.
    destruct Hacc as (new' & Hdb' & _ & _ & Hz & Sa & Ss & Sd & Sn & Htfd & _).
    rewrite <- (app_nil_r db) in Hdb' at 1. apply app_inv_head in Hdb'.
    subst new'. cbn in Sa, Ss, Sd, Sn. unfold cum_total in Htfd.
    assert (Htally : tally = total_faces_detected an) by (subst tally; lia).
    assert (Hp : pending).
    { subst pending. split; [|lia]. intros Hm. specialize (Hz Hm). lia. }
    destruct HA as (s & db' & Hrun & _ & Hflush & _).
    destruct (Hflush Hp) as (r & -> & _ & Hrec & Hcreated).
    exists s, r. split; [exact Hrun|]. split; [reflexivity|].
    split; [reflexivity|]. split; [exact Hcreated|]. split; [exact Hp|].
    split; [exact Hrec|].
    destruct Hrec as (_ & Htot & _ & _ & _ & _ & Hfn & _).
    split; [fold tally in Htot; lia | now rewrite Hfn].
Qed.

End EndOfStream.

Lemma process_video_final_flush_witness :
  (exists (s : Summary) (r : EngagementRecord),
     process_video (P := RefPlatform) "sleepy45.mp4" (Some 7) 30 []
     = (Ok s, [r])
     /\ records_created s = 1 /\ frame_number r = 30)
  /\ (exists (s : Summary) (r : EngagementRecord),
        process_video (P := RefPlatform) "short.mp4" (Some 7) 30 []
        = (Ok s, [r])
        /\ records_created s = 1 /\ total_students r = 20
        /\ frame_number r = 10).
Proof.
  split.
  - destruct (process_video_final_flush (P := RefPlatform)
                "sleepy45.mp4" (Some 7) 30 []
                (mk_analyzer 30 (30, 30) true 45 60 0 0 0 0 (mk_cum 0 60 0 0)) 1
                [mk_record (Some 7) 60 0 60 0 0 (true_div 0 60 * 100)%Q 30]
                eq_refl eq_refl eq_refl) as (_ & H & _).
    + discriminate.
    + vm_compute. reflexivity.
    + destruct (H (repeat (Ok sleepy_frame) 30) (repeat empty_frame 15) eq_refl)
        as (s & r & Hrun & _ & Hrc & _ & Hfn & _).
      * cbn [ref_videos cv2_VideoCapture RefPlatform reads String.eqb
             Ascii.eqb Bool.eqb].
        now rewrite (map_Ok_repeat empty_frame).
      * apply repeat_length.
      * apply repeat_length.
      * apply Forall_repeat, empty_frame_faces.
      * exists s, r. auto.
  - destruct (process_video_final_flush (P := RefPlatform)
                "short.mp4" (Some 7) 30 []
                (mk_analyzer 30 (30, 30) true 10 20 20 0 0 0 (mk_cum 20 0 0 0)) 0
                [] eq_refl eq_refl eq_refl) as (_ & _ & H).
    + discriminate.
    + vm_compute. reflexivity.
    + destruct H as (s & r & Hrun & _ & _ & Hrc & _ & _ & Htot & Hfn);
        [reflexivity | reflexivity | reflexivity |].
      exists s, r. auto.
Defined.

(** ** The shape of a simulated run *)

Lemma simulated_record_ok (vid : option Z) (r : EngagementRecord) :
  video_upload_id r = vid -> simulated_record r -> record_ok vid r.
Proof.
  intros Hv (Ht & Ha & Hs & Hd & Hn & Hc & Hp).
  pose proof (percentage_bounds (rec_attentive_count r) (total_students r))
    as Hb.
  cbn zeta in Hb.
  replace (total_students r >? 0) with true in Hb
    by (symmetry; apply Z.gtb_lt; lia).
  unfold record_ok. rewrite Hp.
  repeat split; try assumption; try lia; apply Hb; lia.
Qed.

Lemma simulate_loop_shape (vid : option Z) (todo : nat) :
  forall (i rc : Z) (db : DB) (g : Rng),
  exists (new : list EngagementRecord) (g' : Rng),
    simulate_loop vid todo i rc db g
    = (Ok (rc + Z.of_nat (List.length new)), db ++ new, g')
    /\ List.length new = todo
    /\ map frame_number new
       = map (fun j => (i + Z.of_nat j) * 30) (seq 0 todo)
    /\ Forall (record_ok vid) new.
Proof.
  induction todo as [|todo IH]; intros i rc db g; cbn [simulate_loop].
  - exists [], g. rewrite app_nil_r, Z.add_0_r. repeat split. constructor.
  - destruct (simulate_record_draw vid i g) as (r & g1 & -> & Hr & Hv & Hfn).
    destruct (IH (i + 1) (rc + 1) (EngagementRecord_save r db) g1)
      as (new & g2 & -> & Hlen & Hmarks & Hall).
    exists (stored r :: new), g2. unfold EngagementRecord_save.
    rewrite <- app_assoc. cbn [app List.length map seq]. repeat split.
    + replace (rc + Z.of_nat (S (List.length new)))
        with (rc + 1 + Z.of_nat (List.length new)) by lia.
      reflexivity.
    + now f_equal.
    + rewrite Hmarks, <- seq_shift, map_map. f_equal.
      * cbn [stored frame_number]. rewrite Hfn. f_equal. cbn. lia.
      * apply map_ext. intros j. f_equal. lia.
    + constructor; [|exact Hall]. now apply simulated_record_ok.
Qed.

(** X9. None of the random draws of [simulate_processing] can raise:
    every record of the loop is built, stamped with frame [30 i], carries
    the upload id, has no negative count and a percentage of at most 100.
    Whatever the call does, the table only grows, by such records, record
    [i] of the call at frame [30 i]; and whenever it returns a summary,
    the summary is successful, flagged as simulated, without a frame
    count, and counts the records added, between 10 and 30. *)
Theorem simulate_processing_shape (vid : option Z) :
  (forall (i : Z) (g : Rng),
     exists (r : EngagementRecord) (g' : Rng),
       simulate_record vid i g = (Ok r, g')
       /\ frame_number r = i * 30 /\ record_ok vid (stored r))
  /\ (forall (db : DB) (g : Rng) (res : result Summary) (db' : DB) (g' : Rng),
        simulate_processing vid db g = (res, db', g') ->
        exists new : list EngagementRecord,
          db' = db ++ new
          /\ map frame_number new
             = map (fun j => Z.of_nat j * 30) (seq 0 (List.length new))
          /\ Forall (record_ok vid) new
          /\ forall s : Summary,
               res = Ok s ->
               success s = true /\ simulated s = true
               /\ total_frames s = None
               /\ records_created s = Z.of_nat (List.length new)
               /\ 10 <= records_created s <= 30).
Proof.
  split.
  - intros i g.
    destruct (simulate_record_draw vid i g) as (r & g' & Hr & Hsim & Hv & Hfn).
    exists r, g'. split; [exact Hr|]. split; [exact Hfn|].
    now apply simulated_record_ok.
  - intros db g res db' g'. unfold simulate_processing.
    destruct (randint_range 10 30 g) as (num & -> & Hn); [lia|].
    destruct (simulate_loop_shape vid (Z.to_nat num) 0 0 db (fun n => g (S n)))
      as (new & g1 & -> & Hlen & Hmarks & Hall).
    intros H; inversion H; subst; clear H.
    exists new. split; [reflexivity|]. rewrite Hlen.
    split; [exact Hmarks|]. split; [exact Hall|].
    intros s Hs; inversion Hs; subst; clear Hs. cbn.
    repeat split; try lia.
Qed.

Lemma simulate_processing_shape_witness :
  exists new : list EngagementRecord,
    snd (fst (simulate_processing (Some 7) [] ref_rng)) = [] ++ new
    /\ Forall (record_ok (Some 7)) new.
Proof.
  destruct (proj2 (simulate_processing_shape (Some 7)) [] ref_rng
              (fst (fst (simulate_processing (Some 7) [] ref_rng)))
              (snd (fst (simulate_processing (Some 7) [] ref_rng)))
              (snd (simulate_processing (Some 7) [] ref_rng)))
    as (new & Hdb & _ & Hall & _).
  - now destruct (simulate_processing (Some 7) [] ref_rng) as [[res db'] g'].
  - exists new. split; [exact Hdb | exact Hall].
Defined.

(** ** The further properties on the reference platforms *)

Lemma process_frame_tally_witness :
  counts_of 2 (mk_counts 2 0 0 0).
Proof.
  refine (proj1 (process_frame_tally (P := RefPlatform)
                   (EngagementAnalyzer_init (P := RefPlatform) 30 (30, 30))
                   (add_counts
                      (EngagementAnalyzer_init (P := RefPlatform) 30 (30, 30))
                      (mk_counts 2 0 0 0))
                   (Some attentive_frame) 2 (mk_counts 2 0 0 0) _)).
  reflexivity.
Defined.

Lemma classify_faces_any_order_witness :
  classify_faces (P := RefPlatform) [bright_face; dim_face]
    [(0, 0, 0, 0); (1, 0, 0, 0)] (mk_counts 0 0 0 0)
  = classify_faces (P := RefPlatform) [bright_face; dim_face]
      [(1, 0, 0, 0); (0, 0, 0, 0)] (mk_counts 0 0 0 0).
Proof.
  apply (classify_faces_any_order (P := RefPlatform)). apply perm_swap.
Defined.

Lemma process_video_accounts_witness :
  exists (new : list EngagementRecord) (stats : Stats),
    final_stats
      (mk_summary true None (Some 45) (Some 60) 1
         (Some (mk_stats 60 0 60 0 0 (true_div 0 60 * 100)%Q)) false)
    = Some stats
    /\ sumZ (map total_students new) = st_total_students stats.
Proof.
  assert (Hrun :
    process_video (P := RefPlatform) "sleepy45.mp4" (Some 7) 30 []
    = (Ok (mk_summary true None (Some 45) (Some 60) 1
             (Some (mk_stats 60 0 60 0 0 (true_div 0 60 * 100)%Q)) false),
       [mk_record (Some 7) 60 0 60 0 0 (true_div 0 60 * 100)%Q 30]))
    by (vm_compute; reflexivity).
  destruct (process_video_accounts (P := RefPlatform) "sleepy45.mp4" (Some 7)
              30 [] _ _ Hrun eq_refl)
    as (new & stats & _ & Hstats & _ & Htot & _).
  exists new, stats. split; [exact Hstats | exact Htot].
Defined.

Lemma process_video_marks_witness :
  exists marks tail : list EngagementRecord,
    [mk_record None 6 6 0 0 0 (true_div 6 6 * 100)%Q 3;
     mk_record None 6 6 0 0 0 (true_div 6 6 * 100)%Q 6;
     mk_record None 6 6 0 0 0 (true_div 6 6 * 100)%Q 9;
     mk_record None 2 2 0 0 0 (true_div 2 2 * 100)%Q 10]
    = marks ++ tail
    /\ Z.of_nat (List.length marks) = 3.
Proof.
  assert (Hrun :
    process_video (P := RefPlatform) "short.mp4" None 3 []
    = (Ok (mk_summary true None (Some 10) (Some 20) 4
             (Some (mk_stats 20 20 0 0 0 (true_div 20 20 * 100)%Q)) false),
       [mk_record None 6 6 0 0 0 (true_div 6 6 * 100)%Q 3;
        mk_record None 6 6 0 0 0 (true_div 6 6 * 100)%Q 6;
        mk_record None 6 6 0 0 0 (true_div 6 6 * 100)%Q 9;
        mk_record None 2 2 0 0 0 (true_div 2 2 * 100)%Q 10]))
    by (vm_compute; reflexivity).
  destruct (process_video_marks (P := RefPlatform) "short.mp4" None 3 [] _ _
              eq_refl Hrun eq_refl)
    as (_ & marks & tail & Hdb & Hlen & _).
  exists marks, tail. split; [exact Hdb | exact Hlen].
Defined.

Lemma process_video_zero_interval_witness :
  process_video (P := DegradedPlatform) "empty.mp4" None 0 []
  = (Raise ZeroDivisionError, [])
  /\ process_video (P := RefPlatform) "short.mp4" None 0 []
     = (Ok (failed (str ZeroDivisionError) 0), []).
Proof.
  split.
  - apply (process_video_zero_interval (P := DegradedPlatform) "empty.mp4"
             None [] eq_refl eq_refl eq_refl).
    reflexivity.
  - refine (proj2 (process_video_zero_interval (P := RefPlatform) "short.mp4"
                     None [] eq_refl eq_refl eq_refl)
              attentive_frame (repeat (Ok attentive_frame) 9) _ _ _
              eq_refl eq_refl).
Defined.

Lemma process_video_without_cascade_witness :
  exists (s : Summary) (new : list EngagementRecord),
    process_video (P := DegradedPlatform) "short.mp4" None 3 []
    = (Ok s, new)
    /\ records_created s = 3 /\ Forall blank_record new.
Proof.
  destruct (process_video_without_cascade (P := DegradedPlatform) "short.mp4"
              None 3 [] (repeat attentive_frame 10)
              eq_refl eq_refl eq_refl eq_refl)
    as (s & new & Hrun & _ & _ & _ & Hrc & _ & Hall).
  - cbn [aux_videos ref_videos cv2_VideoCapture DegradedPlatform reads
         String.eqb Ascii.eqb Bool.eqb].
    apply map_Ok_repeat.
  - apply Forall_repeat. now exists attentive_frame.
  - reflexivity.
  - exists s, new. split; [exact Hrun|]. split; [exact Hrc | exact Hall].
Defined.

(** * The background task of views.py *)

Lemma VideoUpload_get_id (id : Z) (vs : list VideoUpload) (v : VideoUpload) :
  VideoUpload_get id vs = Ok v -> vu_id v = id.
Proof.
  unfold VideoUpload_get. destruct (find _ vs) as [v0|] eqn:Hf; [|discriminate].
  intros H; inversion H; subst. apply find_some in Hf.
  now apply Z.eqb_eq.
Qed.

Lemma VideoUpload_get_save (v : VideoUpload) (vs : list VideoUpload) :
  VideoUpload_get (vu_id v) (VideoUpload_save v vs) = Ok v.
Proof.
  unfold VideoUpload_get, VideoUpload_save.
  induction vs as [|x vs IH]; cbn [existsb map app find].
  - now rewrite Z.eqb_refl.
  - destruct (vu_id x =? vu_id v) eqn:Hx; cbn [orb find].
    + now rewrite Z.eqb_refl.
    + destruct (existsb _ vs); cbn [find]; rewrite Hx; exact IH.
Qed.

Lemma VideoUpload_get_save_other (id : Z) (v : VideoUpload)
  (vs : list VideoUpload) :
  id <> vu_id v ->
  VideoUpload_get id (VideoUpload_save v vs) = VideoUpload_get id vs.
Proof.
  intros Hid. unfold VideoUpload_get, VideoUpload_save.
  assert (Hv : (vu_id v =? id) = false) by (apply Z.eqb_neq; congruence).
  assert (Hmap : find (fun x => vu_id x =? id)
                   (map (fun x => if vu_id x =? vu_id v then v else x) vs)
                 = find (fun x => vu_id x =? id) vs).
  { induction vs as [|x vs IH]; [reflexivity|]. cbn [map find].
    destruct (vu_id x =? vu_id v) eqn:Hx.
    - apply Z.eqb_eq in Hx. rewrite Hx, Hv. exact IH.
    - destruct (vu_id x =? id); [reflexivity | exact IH]. }
  assert (Happ : find (fun x => vu_id x =? id) (vs ++ [v])
                 = find (fun x => vu_id x =? id) vs).
  { clear Hmap. induction vs as [|x vs IH]; cbn [app find].
    - now rewrite Hv.
    - destruct (vu_id x =? id); [reflexivity | exact IH]. }
  destruct (existsb _ vs); [now rewrite Hmap | now rewrite Happ].
Qed.

Section Task.

Context {P : Platform}.

(** The processing step returns a summary, keeps the rows as they are, and
    adds to the records only records of this upload. *)
Lemma run_processing_effect (id : Z) (path : string) (w : World) :
  exists (s : Summary) (new : list EngagementRecord) (g : Rng),
    run_processing id path w
    = (Ok s, mk_world (videos w) (records w ++ new) g)
    /\ Forall (fun r => video_upload_id r = Some id) new
    /\ (CV2_AVAILABLE = false ->
        success s = true /\ total_frames s = None
        /\ (10 <= List.length new <= 30)%nat).
Proof.
  unfold run_processing. destruct CV2_AVAILABLE eqn:Hcv.
  - destruct (process_video path (Some id) 30 (records w)) as [res db'] eqn:H.
    destruct (process_video_extends _ _ _ _ _ _ H) as (new & -> & Hall & _).
    assert (Hres : exists s, res = Ok s).
    { unfold process_video in H. rewrite Hcv in H. cbn [negb] in H.
      destruct (negb (os_path_exists path)); [inversion H; eauto|].
      destruct (negb (isOpened _)); [inversion H; eauto|].
      destruct (video_loop _ _ _ _ _ _) as [[an rc|e rc] db1];
        [|inversion H; eauto].
      destruct (final_flush_ok (Some id) 30 an rc db1 ltac:(discriminate))
        as [[rc' db2] Hf].
      rewrite Hf in H. inversion H; eauto. }
    destruct Hres as [s ->]. exists s, new, (rng w).
    split; [reflexivity|]. split; [|discriminate].
    revert Hall. apply Forall_impl. now intros r [an ->].
  - unfold simulate_processing.
    destruct (randint_range 10 30 (rng w)) as (num & -> & Hn); [lia|].
    destruct (simulate_loop_shape (Some id) (Z.to_nat num) 0 0 (records w)
                (fun n => rng w (S n)))
      as (new & g' & -> & Hlen & _ & Hall).
    eexists _, new, g'. split; [reflexivity|]. split.
    + revert Hall. apply Forall_impl. now intros r [Hv _].
    + intros _. cbn. repeat split; lia.
Qed.

Lemma run_processing_rows (id : Z) (path : string) (w : World)
  (vs : list VideoUpload) :
  run_processing id path (mk_world vs (records w) (rng w))
  = (fst (run_processing id path w),
     mk_world vs (records (snd (run_processing id path w)))
       (rng (snd (run_processing id path w)))).
Proof.
  unfold run_processing. cbn [records rng videos].
  destruct CV2_AVAILABLE.
  - now destruct (process_video _ _ _ _).
  - now destruct (simulate_processing _ _ _) as [[? ?] ?].
Qed.

(** X10. When no row has the id, [process_video_async] does nothing: no
    run is started, no record is written, and no row is changed. *)
Theorem process_video_async_missing_row (id : Z) (path : string) (w : World)
  (e : exn) :
  VideoUpload_get id (videos w) = Raise e ->
  process_video_async id path w = w.
Proof.
  intros H. unfold process_video_async, mark_failed. now rewrite H.
Qed.

(** X11. When the row exists, [process_video_async] leaves it with the
    status [completed] if the processing step reported success and
    [failed] if not, never [pending] or [processing]; [processed] is set
    on success and kept otherwise, the frame count is taken from the
    summary when it has one, and every other row is as before. *)
Theorem process_video_async_status (id : Z) (path : string) (w : World)
  (v : VideoUpload) :
  VideoUpload_get id (videos w) = Ok v ->
  exists (s : Summary) (v' : VideoUpload),
    fst (run_processing id path w) = Ok s
    /\ VideoUpload_get id (videos (process_video_async id path w)) = Ok v'
    /\ vu_id v' = id
    /\ processing_status v'
       = (if success s then "completed" else "failed")%string
    /\ processed v' = (success s || processed v)
    /\ vu_total_frames v'
       = (if success s
          then match total_frames s with
               | Some n => Some n
               | None => vu_total_frames v
               end
          else vu_total_frames v)
    /\ forall id2 : Z,
         id2 <> id ->
         VideoUpload_get id2 (videos (process_video_async id path w))
         = VideoUpload_get id2 (videos w).
Proof.
  intros Hget. pose proof (VideoUpload_get_id _ _ _ Hget) as Hid.
  destruct (run_processing_effect id path w) as (s & new & g & Hrun & _ & _).
  unfold process_video_async. rewrite Hget, run_processing_rows, Hrun.
  cbn [fst snd records rng videos].
  set (v1 := with_status v "processing").
  assert (Hid1 : vu_id v1 = id) by exact Hid.
  pose proof (VideoUpload_get_save v1 (videos w)) as Hg1.
  rewrite Hid1 in Hg1. rewrite Hg1. cbn [videos].
  exists s, (apply_result v1 s).
  assert (Hid2 : vu_id (apply_result v1 s) = id).
  { unfold apply_result. now destruct (success s). }
  split; [reflexivity|]. split.
  { rewrite <- Hid2 at 1. apply VideoUpload_get_save. }
  split; [exact Hid2|].
  assert (Hothers : forall id2 : Z, id2 <> id ->
    VideoUpload_get id2
      (VideoUpload_save (apply_result v1 s) (VideoUpload_save v1 (videos w)))
    = VideoUpload_get id2 (videos w)).
  { intros id2 Hne.
    rewrite VideoUpload_get_save_other by (rewrite Hid2; exact Hne).
    apply VideoUpload_get_save_other. rewrite Hid1. exact Hne. }
  split; [unfold apply_result; now destruct (success s)|].
  split; [unfold apply_result; now destruct (success s)|].
  split; [unfold apply_result; now destruct (success s)|].
  exact Hothers.
Qed.

(** X12. [process_video_async] only adds to the record table, and every
    record it adds carries the id of the upload. *)
Theorem process_video_async_records (id : Z) (path : string) (w : World) :
  exists new : list EngagementRecord,
    records (process_video_async id path w) = records w ++ new
    /\ Forall (fun r => video_upload_id r = Some id) new.
Proof.
  unfold process_video_async.
  destruct (VideoUpload_get id (videos w)) as [v|e] eqn:Hget.
  - destruct (run_processing_effect id path w) as (s & new & g & Hrun & Hall & _).
    rewrite run_processing_rows, Hrun. cbn [fst snd records rng videos].
    exists new. split; [|exact Hall].
    unfold mark_failed. cbn [videos].
    destruct (VideoUpload_get id (VideoUpload_save _ (videos w)));
      reflexivity.
  - exists []. rewrite app_nil_r. split; [|constructor].
    unfold mark_failed. now rewrite Hget.
Qed.

End Task.

(** * The engagement filter of the record list *)

Lemma Qle_bool_false (x y : Q) : (y < x)%Q -> Qle_bool x y = false.
Proof.
  intros H. destruct (Qle_bool x y) eqn:E; [|reflexivity].
  apply Qle_bool_iff in E. lra.
Qed.

Lemma Qle_bool_true (x y : Q) : (x <= y)%Q -> Qle_bool x y = true.
Proof. apply Qle_bool_iff. Qed.

Lemma Qlt_bool_true (x y : Q) : (x < y)%Q -> Qlt_bool x y = true.
Proof. apply Qlt_bool_iff. Qed.

Lemma Qlt_bool_false (x y : Q) : (y <= x)%Q -> Qlt_bool x y = false.
Proof. intros H. apply Qlt_bool_false_iff. lra. Qed.

(** Where a percentage falls among the three levels. *)
Lemma level_cases (p : Q) :
  (Qle_bool 70 p = true /\ Qle_bool 40 p && Qlt_bool p 70 = false
   /\ Qlt_bool p 40 = false)
  \/ (Qle_bool 70 p = false /\ Qle_bool 40 p && Qlt_bool p 70 = true
      /\ Qlt_bool p 40 = false)
  \/ (Qle_bool 70 p = false /\ Qle_bool 40 p && Qlt_bool p 70 = false
      /\ Qlt_bool p 40 = true).
Proof.
  destruct (Qlt_le_dec p 40) as [H40|H40].
  - right. right.
    rewrite (Qle_bool_false 70 p), (Qle_bool_false 40 p), (Qlt_bool_true p 40)
      by lra.
    auto.
  - destruct (Qlt_le_dec p 70) as [H70|H70].
    + right. left.
      rewrite (Qle_bool_false 70 p), (Qle_bool_true 40 p), (Qlt_bool_true p 70),
        (Qlt_bool_false p 40) by lra.
      auto.
    + left.
      rewrite (Qle_bool_true 70 p), (Qlt_bool_false p 70), (Qlt_bool_false p 40)
        by lra.
      rewrite andb_false_r. auto.
Qed.

(** X14. The three engagement levels of [engagement_list] partition the
    records: every record is listed under exactly one of [high] (70 and
    above), [medium] (40 up to 70) and [low] (below 40). *)
Theorem engagement_levels_partition (rs : DB) :
  Permutation
    (filter_by_engagement (Some "high"%string) rs
     ++ filter_by_engagement (Some "medium"%string) rs
     ++ filter_by_engagement (Some "low"%string) rs)
    rs.
Proof.
  cbn [filter_by_engagement String.eqb Ascii.eqb Bool.eqb].
  induction rs as [|r rs IH]; [constructor|]. cbn [filter].
  destruct (level_cases (engagement_percentage r))
    as [(-> & -> & ->) | [(-> & -> & ->) | (-> & -> & ->)]]; cbn [app].
  - now apply perm_skip.
  - apply Permutation_sym, Permutation_cons_app, Permutation_sym, IH.
  - rewrite app_assoc. apply Permutation_sym, Permutation_cons_app.
    rewrite <- app_assoc. apply Permutation_sym, IH.
Qed.

(** * Upload names *)

Lemma split_on_free (sep : ascii) (s : string) :
  free_of sep s = true -> split_on sep s = [s].
Proof.
  induction s as [|c s IH]; cbn [free_of split_on]; [reflexivity|].
  destruct (Ascii.eqb c sep); cbn [negb andb]; [discriminate|].
  intros H. now rewrite (IH H).
Qed.

Lemma split_on_pieces_free (sep : ascii) (s : string) :
  Forall (fun p => free_of sep p = true) (split_on sep s).
Proof.
  induction s as [|c s IH]; cbn [split_on].
  - now repeat constructor.
  - destruct (Ascii.eqb c sep) eqn:Hc.
    + now constructor.
    + destruct (split_on sep s) as [|p ps]; [now repeat constructor; cbn; rewrite Hc|].
      inversion IH; subst. constructor; [|assumption].
      cbn [free_of]. now rewrite Hc.
Qed.

Lemma split_on_before_sep (sep : ascii) (b e : string) :
  exists (p : string) (ps : list string),
    split_on sep (b ++ String sep e) = p :: ps ++ split_on sep e.
Proof.
  induction b as [|c b (p & ps & IH)]; cbn [append split_on].
  - rewrite Ascii.eqb_refl. now exists EmptyString, [].
  - rewrite IH. destruct (Ascii.eqb c sep).
    + now exists EmptyString, (p :: ps).
    + now exists (String c p), ps.
Qed.

Lemma last_item_after_sep (sep : ascii) (b e : string) :
  free_of sep e = true ->
  last_item (split_on sep (b ++ String sep e)) = e.
Proof.
  intros He. destruct (split_on_before_sep sep b e) as (p & ps & ->).
  rewrite (split_on_free sep e He). unfold last_item.
  change (p :: ps ++ [e]) with ((p :: ps) ++ [e]). apply last_last.
Qed.

Lemma last_item_free (sep : ascii) (s : string) :
  free_of sep (last_item (split_on sep s)) = true.
Proof.
  unfold last_item. pose proof (split_on_pieces_free sep s) as H.
  induction H as [|p ps Hp Hps IH]; [reflexivity|].
  destruct ps as [|q ps]; [exact Hp | exact IH].
Qed.

Lemma dotted_name_not_empty (b e : string) :
  String.eqb (b ++ String "." e) "" = false.
Proof. now destruct b. Qed.

Lemma os_path_join_videos (b : string) :
  (forall rest, b <> String "/" rest) ->
  os_path_join "videos/" b = ("videos/" ++ b)%string.
Proof.
  intros H. destruct b as [|c b]; [reflexivity|].
  destruct c as [[] [] [] [] [] [] [] []]; try reflexivity.
  exfalso. now apply (H b).
Qed.

(** X15. On a name [base.ext] whose [ext] has no dot,
    [clean_video_file] looks only at [ext] and the size: it rejects the
    file as unsupported when [ext], lowercased, is not one of the six
    extensions, whatever the size; it rejects it as too large when the
    extension is allowed and the size exceeds 500 MB; it accepts it
    otherwise. *)
Theorem clean_video_file_extension (base ext : string) (size : Z) :
  free_of "." ext = true ->
  let f := mk_file (base ++ "." ++ ext) size in
  (string_in (lower ext) allowed_extensions = false ->
   clean_video_file (Some f)
   = ValidationError
       "Unsupported file format. Allowed formats: mp4, avi, mov, mkv, flv, wmv")
  /\ (string_in (lower ext) allowed_extensions = true -> max_size < size ->
      clean_video_file (Some f)
      = ValidationError "Video file is too large. Maximum size is 500MB.")
  /\ (string_in (lower ext) allowed_extensions = true -> size <= max_size ->
      clean_video_file (Some f) = Cleaned (Some f)).
Proof.
  intros Hext f. subst f. unfold clean_video_file. cbn [file_name file_size].
  change (base ++ "." ++ ext)%string with (base ++ String "." ext)%string.
  rewrite dotted_name_not_empty, (last_item_after_sep "." base ext Hext).
  repeat split.
  - intros ->. reflexivity.
  - intros -> Hs. cbn [negb].
    replace (size >? max_size) with true by (symmetry; apply Z.gtb_lt; lia).
    reflexivity.
  - intros -> Hs. cbn [negb].
    destruct (Z.gtb_spec size max_size); [lia | reflexivity].
Qed.

Lemma video_upload_path_shape_aux (stamp filename : string) :
  (forall rest, stamp <> String "/" rest) ->
  video_upload_path stamp filename
  = ("videos/" ++ stamp ++ "." ++ last_item (split_on "." filename))%string
  /\ free_of "." (last_item (split_on "." filename)) = true.
Proof.
  intros Hstamp. split; [|apply last_item_free].
  unfold video_upload_path. apply os_path_join_videos.
  intros rest. destruct stamp as [|c stamp]; cbn [append].
  - discriminate.
  - intros H. inversion H; subst.
    now apply (Hstamp stamp).
Qed.

(** X16. For a time stamp that does not begin with a slash,
    [video_upload_path] is [videos/<stamp>.<ext>], where [ext] is the text
    after the last dot of the upload name, or the whole name when it has no
    dot; [ext] has no dot, and nothing else of the upload name is kept. *)
Theorem video_upload_path_shape (stamp filename : string) :
  (forall rest, stamp <> String "/" rest) ->
  exists ext : string,
    video_upload_path stamp filename = ("videos/" ++ stamp ++ "." ++ ext)%string
    /\ free_of "." ext = true
    /\ (forall base e : string,
          free_of "." e = true -> filename = (base ++ "." ++ e)%string ->
          ext = e)
    /\ (free_of "." filename = true -> ext = filename).
Proof.
  intros Hstamp. exists (last_item (split_on "." filename)).
  split; [|split; [|split]].
  - apply (video_upload_path_shape_aux stamp filename Hstamp).
  - apply last_item_free.
  - intros base e He ->. now apply last_item_after_sep.
  - intros Hf. now rewrite (split_on_free _ _ Hf).
Qed.

(** ** The task and the upload names on concrete inputs *)

Lemma process_video_async_missing_row_witness :
  process_video_async (P := RefPlatform) 99 "sleepy45.mp4" ref_world
  = ref_world.
Proof.
  apply (process_video_async_missing_row (P := RefPlatform) 99 "sleepy45.mp4"
           ref_world
           (OtherError "VideoUpload matching query does not exist.")).
  reflexivity.
Defined.

Lemma process_video_async_status_witness :
  exists v' : VideoUpload,
    VideoUpload_get 7
      (videos (process_video_async (P := RefPlatform) 7 "sleepy45.mp4"
                 ref_world))
    = Ok v'
    /\ vu_id v' = 7.
Proof.
  destruct (process_video_async_status (P := RefPlatform) 7 "sleepy45.mp4"
              ref_world (mk_video 7 false "pending" None) eq_refl)
    as (s & v' & _ & Hget & Hid & _).
  exists v'. split; [exact Hget | exact Hid].
Defined.

Lemma clean_video_file_extension_witness :
  clean_video_file (Some (mk_file "lecture.MP4" 1000))
  = Cleaned (Some (mk_file "lecture.MP4" 1000))
  /\ clean_video_file (Some (mk_file "lecture.mp4.exe" 1000))
     = ValidationError
         "Unsupported file format. Allowed formats: mp4, avi, mov, mkv, flv, wmv".
Proof.
  split.
  - apply (proj2 (proj2 (clean_video_file_extension "lecture" "MP4" 1000
                           eq_refl))).
    + reflexivity.
    + discriminate.
  - apply (proj1 (clean_video_file_extension "lecture.mp4" "exe" 1000
                    eq_refl)).
    reflexivity.
Defined.

Lemma video_upload_path_shape_witness :
  exists ext : string,
    video_upload_path "20240101_120000" "my.lecture.MP4"
    = ("videos/" ++ "20240101_120000" ++ "." ++ ext)%string
    /\ ext = "MP4"%string.
Proof.
  destruct (video_upload_path_shape "20240101_120000" "my.lecture.MP4")
    as (ext & Hpath & _ & Hext & _).
  - intros rest. discriminate.
  - exists ext. split; [exact Hpath|].
    apply (Hext "my.lecture"%string "MP4"%string); reflexivity.
Defined.
